(** * Robbie: the variability plotting scripts

    A shallow embedding of [src/scripts/plot_variables.py] (flat-table
    version with the parallel light-curve driver) and of
    [src/plot_variables.py] (the older version with the database path),
    followed by the properties of the batch scheduler, the row renderer and
    the summary renderer.

    Conventions of the embedding.
    - Table cells that are floats in the source ([md], the p-values, the
      fluxes, ...) are rationals [Q]; only their sign and their identity
      matter to the code.
    - The file system is one finite map from paths to files; paths are
      compared as strings, so that every file has one spelling.  A file
      holds a flux table, a statistics table, a database or a figure.  A
      table file carries typed rows: the column families selected by name
      prefix in [plot_lc_table] ([epoch*], [peak_flux*], [err_peak_flux*])
      are the three lists of a [flux_row], of which any can be empty.
      [Table.read] is followed where it reads a table of the kind its caller
      goes on to use, and is a failure of the library on every other file;
      the properties that depend on a read say what the file holds.
    - A figure file stores what was handed to the plotting library
      ([scatter], [errorbar], [title], the legend label), not pixels.
      [scatter] keeps the markers whose coordinates and colour are finite,
      and [errorbar] is given error values that are not negative.
    - [savefig] takes the format from the extension of the file name, as
      matplotlib does: a name without extension gets [.png] appended, and an
      extension that names no format is refused.  The directory of the file
      is taken to exist.  The name of a light curve, [dir/uuid.png], is
      taken to have the extension [.png]: what follows the last slash of
      [dir/uuid] is not empty and not made of dots only.
    - [strptime] follows the regular expressions of CPython 3.11, with the
      decimal digits of Unicode 14.0.
    - [stdout] holds the arguments of the [print] calls, in order.
    - The constant decorations of the figures (axis limits and labels,
      shading, fonts) are left out.
    - The workers of the pool run one after the other, in the order in
      which they were submitted; what a worker raises is kept from the
      caller, as [apply_async] does when its result object is dropped.
    - Python exceptions are values of [exn]; a computation is a function from
      the world to the world reached and either a value or the exception
      raised. *)

From Stdlib Require Import ZArith NArith QArith Qabs Ascii String List Lia.
From stdpp Require Import base tactics option list sorting gmap strings pretty.

Local Open Scope string_scope.
Local Open Scope Z_scope.
Local Open Scope list_scope.

(** ** Python values and exceptions *)

Inductive pyval :=
  | PyNone
  | PyStr (s : string)
  | PyBool (b : bool)
  | PyInt (z : Z).

#[global] Instance pyval_eq_dec : EqDecision pyval.
Proof. solve_decision. Defined.

(** Truth value testing, as [if x:] and [x or y] perform it. *)
Definition truthy (v : pyval) : bool :=
  match v with
  | PyNone => false
  | PyStr s => negb (String.eqb s "")
  | PyBool b => b
  | PyInt z => negb (z =? 0)
  end.

(** The places of the two scripts that raise [ValueError]. *)
Inductive value_error :=
  | TimeDataMismatch (data : string)   (* strptime: data does not match format *)
  | NotEnoughValues                    (* a, b, c = <fewer than three values> *)
  | PoolSize                           (* Pool: number of processes must be at least 1 *)
  | SliceStepZero                      (* slice step cannot be zero *)
  | UnsupportedFormat (format : string) (* savefig: format is not supported *)
  | ErrorbarShape.                     (* errorbar: yerr does not match y *)

Inductive exn :=
  | ValueError (why : value_error)
  | IndexError                         (* column[0] of an empty column, row[[]] *)
  | TypeError                          (* unpacking None *)
  | AttributeError (attr : string)     (* Namespace object has no such attribute *)
  | LibraryError (site : string)       (* a failure inside Table.read, savefig, sqlite3 *)
  | SystemExit.

#[global] Instance value_error_eq_dec : EqDecision value_error.
Proof. solve_decision. Defined.
#[global] Instance exn_eq_dec : EqDecision exn.
Proof. solve_decision. Defined.

Inductive result (A : Type) :=
  | Ok (a : A)
  | Raise (e : exn).
Arguments Ok {A} a.
Arguments Raise {A} e.

Definition is_ok {A} (r : result A) : bool :=
  match r with Ok _ => true | Raise _ => false end.

Definition rbind {A B} (r : result A) (k : A → result B) : result B :=
  match r with
  | Ok a => k a
  | Raise e => Raise e
  end.

(** [[f(x) for x in l]], stopping at the first exception. *)
Fixpoint rmap {A B} (f : A → result B) (l : list A) : result (list B) :=
  match l with
  | [] => Ok []
  | x :: t => rbind (f x) (λ y, rbind (rmap f t) (λ ys, Ok (y :: ys)))
  end.

(** ** [datetime.datetime] and [strptime] with format [%Y-%m-%dT%H:%M:%S] *)

Record datetime := mk_datetime {
  year : N; month : N; day : N; hour : N; minute : N; second : N
}.

#[global] Instance datetime_eq_dec : EqDecision datetime.
Proof. solve_decision. Defined.

Definition dt_fields (d : datetime) : list N :=
  [year d; month d; day d; hour d; minute d; second d].

(** Naive datetimes compare field by field, most significant first. *)
Fixpoint lex_compare (a b : list N) : comparison :=
  match a, b with
  | [], [] => Eq
  | [], _ :: _ => Lt
  | _ :: _, [] => Gt
  | x :: a', y :: b' =>
      match (x ?= y)%N with
      | Eq => lex_compare a' b'
      | c => c
      end
  end.

Definition dt_compare (a b : datetime) : comparison :=
  lex_compare (dt_fields a) (dt_fields b).

Definition dt_leb (a b : datetime) : bool :=
  match dt_compare a b with Gt => false | _ => true end.

Definition dt_le (a b : datetime) : Prop := dt_leb a b = true.

(** A Python string is the string of its UTF-8 bytes; [utf8_char] reads
    the code point of its first character. *)
Definition continuation (c : ascii) : option N :=
  let n := N_of_ascii c in
  if ((128 <=? n) && (n <? 192))%N then Some (n - 128)%N else None.

Definition utf8_char (s : string) : option (N * string) :=
  match s with
  | EmptyString => None
  | String a r =>
      let n := N_of_ascii a in
      if (n <? 128)%N then Some (n, r)
      else if (n <? 192)%N then None
      else if (n <? 224)%N then
        match r with
        | String b r => x ← continuation b; Some ((n - 192) * 64 + x, r)%N
        | _ => None
        end
      else if (n <? 240)%N then
        match r with
        | String b (String c r) =>
            x ← continuation b; y ← continuation c;
            Some (((n - 224) * 64 + x) * 64 + y, r)%N
        | _ => None
        end
      else
        match r with
        | String b (String c (String d r)) =>
            x ← continuation b; y ← continuation c; z ← continuation d;
            Some ((((n - 240) * 64 + x) * 64 + y) * 64 + z, r)%N
        | _ => None
        end
  end.

(** The decimal digits of Unicode 14.0 (general category Nd), as CPython
    3.11 knows them: runs of ten code points for the digits 0 to 9, given by
    the code point of their zero. *)
Definition decimal_zeros : list N :=
  [48; 1632; 1776; 1984; 2406; 2534; 2662; 2790; 2918; 3046; 3174; 3302;
   3430; 3558; 3664; 3792; 3872; 4160; 4240; 6112; 6160; 6470; 6608; 6784;
   6800; 6992; 7088; 7232; 7248; 42528; 43216; 43264; 43472; 43504; 43600;
   44016; 65296; 66720; 68912; 69734; 69872; 69942; 70096; 70384; 70736;
   70864; 71248; 71360; 71472; 71904; 72016; 72784; 73040; 73120; 92768;
   92864; 93008; 120782; 120792; 120802; 120812; 120822; 123200; 123632;
   125264; 130032]%N.

Definition decimal (cp : N) : option N :=
  (λ zero, cp - zero)%N
    <$> List.find (λ zero, (zero <=? cp) && (cp <? zero + 10))%N decimal_zeros.

(** The digit [0-9] of a character class. *)
Definition digit (c : ascii) : option N :=
  let n := N_of_ascii c in
  if ((48 <=? n) && (n <=? 57))%N then Some (n - 48)%N else None.

(** The pieces of the regular expressions of [_strptime]: a class of ASCII
    digits [[lo-hi]], [\d] (in a [str] pattern: any decimal digit of
    Unicode) and the space. *)
Inductive char_class :=
  | Between (lo hi : N)
  | Decimal
  | Space.

Definition re_class (k : char_class) (s : string) : option (list N * string) :=
  match k with
  | Between lo hi =>
      match s with
      | String a r =>
          d ← digit a;
          if ((lo <=? d) && (d <=? hi))%N then Some ([d], r) else None
      | EmptyString => None
      end
  | Decimal => '(cp, r) ← utf8_char s; d ← decimal cp; Some ([d], r)
  | Space =>
      match s with
      | String " "%char r => Some ([], r)
      | _ => None
      end
  end.

Fixpoint re_seq (ks : list char_class) (s : string)
  : option (list N * string) :=
  match ks with
  | [] => Some ([], s)
  | k :: ks =>
      '(d, s) ← re_class k s; '(ds, s) ← re_seq ks s; Some (d ++ ds, s)
  end.

(** [int] of the matched digits. *)
Definition int_of_digits (ds : list N) : N :=
  foldl (λ n d, 10 * n + d)%N 0%N ds.

(** An alternation: the alternatives are tried in order.  In the format at
    hand every directive is followed by a character that is no digit (or
    by the end of the pattern), so that the first alternative that matches
    is the only one that can lead to a match of the whole pattern. *)
Fixpoint re_alt (alts : list (list char_class)) (s : string)
  : option (N * string) :=
  match alts with
  | [] => None
  | ks :: alts =>
      match re_seq ks s with
      | Some (ds, r) => Some (int_of_digits ds, r)
      | None => re_alt alts s
      end
  end.

(** [%Y] is [\d\d\d\d]. *)
Definition re_Y : string → option (N * string) :=
  re_alt [[Decimal; Decimal; Decimal; Decimal]].

(** [%m] is [1[0-2]|0[1-9]|[1-9]]. *)
Definition re_m : string → option (N * string) :=
  re_alt [[Between 1 1; Between 0 2]; [Between 0 0; Between 1 9];
          [Between 1 9]].

(** [%d] is [3[0-1]|[1-2]\d|0[1-9]|[1-9]| [1-9]]. *)
Definition re_d : string → option (N * string) :=
  re_alt [[Between 3 3; Between 0 1]; [Between 1 2; Decimal];
          [Between 0 0; Between 1 9]; [Between 1 9]; [Space; Between 1 9]].

(** [%H] is [2[0-3]|[0-1]\d|\d]. *)
Definition re_H : string → option (N * string) :=
  re_alt [[Between 2 2; Between 0 3]; [Between 0 1; Decimal]; [Decimal]].

(** [%M] is [[0-5]\d|\d]. *)
Definition re_M : string → option (N * string) :=
  re_alt [[Between 0 5; Decimal]; [Decimal]].

(** [%S] is [6[0-1]|[0-5]\d|\d]. *)
Definition re_S : string → option (N * string) :=
  re_alt [[Between 6 6; Between 0 1]; [Between 0 5; Decimal]; [Decimal]].

(** A literal character of the format; the format is compiled with
    IGNORECASE, so the [T] also matches [t]. *)
Definition re_lit (c : ascii) (s : string) : option string :=
  match s with
  | String a r =>
      if decide (a = c) then Some r
      else if decide (c = "T"%char ∧ a = "t"%char) then Some r
      else None
  | EmptyString => None
  end.

Definition is_leap (y : N) : bool :=
  ((y mod 4 =? 0) && negb (y mod 100 =? 0) || (y mod 400 =? 0))%N.

Definition days_in_month (y m : N) : N :=
  (if m =? 2 then (if is_leap y then 29 else 28)
   else if (m =? 4) || (m =? 6) || (m =? 9) || (m =? 11) then 30
   else 31)%N.

(** The checks of the [datetime] constructor on the parsed fields. *)
Definition datetime_new (y m d hh mm ss : N) : option datetime :=
  if ((1 <=? y) && (y <=? 9999) && (1 <=? m) && (m <=? 12)
      && (1 <=? d) && (d <=? days_in_month y m)
      && (hh <=? 23) && (mm <=? 59) && (ss <=? 59))%N
  then Some (mk_datetime y m d hh mm ss) else None.

Definition parse_datetime (s : string) : option datetime :=
  '(y, s) ← re_Y s;
  s ← re_lit "-" s;
  '(m, s) ← re_m s;
  s ← re_lit "-" s;
  '(d, s) ← re_d s;
  s ← re_lit "T" s;
  '(hh, s) ← re_H s;
  s ← re_lit ":" s;
  '(mm, s) ← re_M s;
  s ← re_lit ":" s;
  '(ss, s) ← re_S s;
  match s with
  | EmptyString => datetime_new y m d hh mm ss
  | String _ _ => None     (* unconverted data remains *)
  end.

(** [datetime.datetime.strptime(a, "%Y-%m-%dT%H:%M:%S")]. *)
Definition strptime (a : string) : result datetime :=
  match parse_datetime a with
  | Some d => Ok d
  | None => Raise (ValueError (TimeDataMismatch a))
  end.

(** ** [sorted(l, key=...)] *)

Section Sorted.
Context {A K : Type} (leb : K → K → bool).

(** Insertion in front of the first element with a key that is not
    smaller: elements with equal keys keep their order, as in Python's
    stable sort. *)
Fixpoint insert_by (x : K * A) (l : list (K * A)) : list (K * A) :=
  match l with
  | [] => [x]
  | y :: t => if leb x.1 y.1 then x :: y :: t else y :: insert_by x t
  end.

Definition sort_by (l : list (K * A)) : list (K * A) :=
  foldr insert_by [] l.

(** The keys are computed once for every element, in order, before any
    comparison takes place; an exception of the key function leaves
    [sorted]. *)
Definition sorted (key : A → result K) (l : list A) : result (list A) :=
  rbind (rmap (λ x, rbind (key x) (λ k, Ok (k, x))) l)
        (λ decorated, Ok (snd <$> sort_by decorated)).
End Sorted.

(** ** Extended slicing [l[start::stride]] *)

(** Number of selected positions for a positive step, as CPython computes
    it. *)
Definition slice_len (start stride len : nat) : nat :=
  if (start <? len)%nat then ((len - start - 1) / stride + 1)%nat else 0%nat.

(** The positions [start, start + stride, start + 2 * stride, ...] below
    [len]. *)
Definition slice_indices (start stride len : nat) : list nat :=
  (λ k, start + k * stride)%nat <$> seq 0 (slice_len start stride len).

Definition py_slice {A} (start stride : nat) (l : list A) : result (list A) :=
  if (stride =? 0)%nat then Raise (ValueError SliceStepZero)
  else Ok (omap (λ j, l !! j) (slice_indices start stride (length l))).

(** ** Tables, figures and the world *)

(** A row of the flux table.  [epoch_cells], [peak_flux_cells] and
    [err_peak_flux_cells] are [list(row[epochs])], [list(row[fluxes])] and
    [list(row[err_fluxes])], in column order. *)
Record flux_row := {
  uuid : string;
  epoch_cells : list string;
  peak_flux_cells : list Q;
  err_peak_flux_cells : list Q
}.

(** A row of the statistics table (or of the [stats] relation). *)
Record stats_row := {
  st_uuid : string;
  st_m : Q;
  st_md : Q;
  st_chisq_peak_flux : Q;
  st_pval_peak_flux : Q;
  st_pval_peak_flux_ks : Q;
  st_mean_peak_flux : Q
}.

(** The relations [sources], [epochs] and [stats] of the database. *)
Record database := {
  db_sources : list (string * Z * Q * Q);   (* uuid, epoch, peak_flux, err_peak_flux *)
  db_epochs : list (Z * string);            (* epoch, date *)
  db_stats : list stats_row
}.

(** [np.log10]: defined on the positive numbers, [-inf] at zero and [nan]
    below. *)
Inductive logval :=
  | Log10 (x : Q)
  | NegInf
  | NaN.

Definition Qpositive (x : Q) : bool := (0 <? Qnum x)%Z.

Definition np_log10 (x : Q) : logval :=
  if Qpositive x then Log10 x
  else if (Qnum x =? 0)%Z then NegInf
  else NaN.

(** One marker of [ax.scatter(x, y, c=...)]. *)
Record point := { pt_x : Q; pt_y : logval; pt_c : logval }.

Definition finite (v : logval) : bool :=
  match v with Log10 _ => true | NegInf | NaN => false end.

(** [scatter] masks the points one of whose coordinates or whose colour
    value is not finite: they are not part of the plot. *)
Definition scatter (x : list Q) (y c : list logval) : list point :=
  List.filter (λ pt, finite (pt_y pt) && finite (pt_c pt))
    (zip_with (λ a bc, {| pt_x := a; pt_y := bc.1; pt_c := bc.2 |}) x (zip y c)).

Inductive xval :=
  | XLabel (s : string)
  | XEpoch (e : Z)
  | XDate (d : datetime).

(** What [errorbar], [xlabel], [title] and [legend] received. *)
Record light_curve := {
  lc_x : list xval;
  lc_y : list Q;
  lc_yerr : list Q;
  lc_label : Q * Q * Q;           (* m, md, chisq of the legend text *)
  lc_xlabel : option string;
  lc_title : string
}.

Inductive figure :=
  | Summary (points : list point)
  | LightCurve (lc : light_curve).

Inductive file :=
  | FluxTable (rows : list flux_row)
  | StatsTable (rows : list stats_row)
  | Sqlite (db : database)
  | Png (fig : figure).

Record world := {
  files : gmap string file;
  stdout : list string;
  cpu_count : Z                   (* mp.cpu_count() of the host *)
}.

(** ** Computations *)

Definition M (A : Type) : Type := world → world * result A.

#[global] Instance M_ret : MRet M := λ A a w, (w, Ok a).

#[global] Instance M_bind : MBind M := λ A B k c w,
  match c w with
  | (w', Ok a) => k a w'
  | (w', Raise e) => (w', Raise e)
  end.

Definition raise {A} (e : exn) : M A := λ w, (w, Raise e).

Definition lift {A} (r : result A) : M A := λ w, (w, r).

(** [for x in l: body(x)] *)
Fixpoint for_each {A} (l : list A) (body : A → M unit) : M unit :=
  match l with
  | [] => mret ()
  | x :: t => body x;; for_each t body
  end.

(** The world after more text has reached the terminal, and after a file
    has been created or replaced. *)
Definition emit (out : list string) (w : world) : world :=
  {| files := files w; stdout := stdout w ++ out; cpu_count := cpu_count w |}.

Definition write_file (p : string) (f : file) (w : world) : world :=
  {| files := <[p := f]> (files w); stdout := stdout w;
     cpu_count := cpu_count w |}.

Definition print (s : string) : M unit := λ w, (emit [s] w, Ok ()).

Definition os_path_exists (p : string) : M bool := λ w,
  (w, Ok (bool_decide (is_Some (files w !! p)))).

(** [os.path.splitext(p)[1][1:]], read from the end of the path: the
    extension starts at the last dot of the last component, unless nothing
    but dots comes before that dot in the component. *)
Fixpoint extension_rev (rev_path ext : list ascii)
  : option (list ascii * list ascii) :=
  match rev_path with
  | [] => None
  | c :: before =>
      if decide (c = "/"%char) then None
      else if decide (c = "."%char) then Some (ext, before)
      else extension_rev before (c :: ext)
  end.

Fixpoint only_dots_rev (rev_component : list ascii) : bool :=
  match rev_component with
  | [] => true
  | c :: before =>
      if decide (c = "/"%char) then true
      else if decide (c = "."%char) then only_dots_rev before
      else false
  end.

Definition splitext_format (p : string) : string :=
  match extension_rev (rev (list_ascii_of_string p)) [] with
  | Some (ext, before) =>
      if only_dots_rev before then "" else string_of_list_ascii ext
  | None => ""
  end.

(** [str.rstrip('.')] and [str.lower] (on the letters A to Z). *)
Fixpoint lstrip_dots (l : list ascii) : list ascii :=
  match l with
  | c :: l' => if decide (c = "."%char) then lstrip_dots l' else l
  | [] => []
  end.

Definition rstrip_dots (p : string) : string :=
  string_of_list_ascii (rev (lstrip_dots (rev (list_ascii_of_string p)))).

Definition lower (s : string) : string :=
  string_of_list_ascii
    ((λ c, let n := N_of_ascii c in
           if ((65 <=? n) && (n <=? 90))%N then ascii_of_N (n + 32) else c)
       <$> list_ascii_of_string s).

(** The formats in which a figure can be written (matplotlib 3.6 and
    later). *)
Definition supported_formats : list string :=
  ["eps"; "jpeg"; "jpg"; "pdf"; "pgf"; "png"; "ps"; "raw"; "rgba"; "svg";
   "svgz"; "tif"; "tiff"; "webp"].

Fixpoint ends_in_png (s : string) : bool :=
  match s with
  | EmptyString => false
  | String _ r => if String.eqb s ".png" then true else ends_in_png r
  end.

(** The file [savefig(p)] writes: [p] when its extension names a supported
    format, [p] with [.png] appended when it has no extension.  A name that
    ends in [.png] is taken to have that extension. *)
Definition savefig_path (p : string) : result string :=
  if ends_in_png p then Ok p
  else
    let format := lower (splitext_format p) in
    if decide (format = "") then Ok (rstrip_dots p +:+ ".png")
    else if decide (format ∈ supported_formats) then Ok p
    else Raise (ValueError (UnsupportedFormat format)).

(** [savefig] creates or replaces the file; a file name that is not a
    string is refused by the library. *)
Definition savefig (fname : pyval) (fig : figure) : M unit := λ w,
  match fname with
  | PyStr p =>
      match savefig_path p with
      | Ok q => (write_file q (Png fig) w, Ok ())
      | Raise e => (w, Raise e)
      end
  | _ => (w, Raise (LibraryError "savefig"))
  end.

(** [Table.read(filename)], once for each of the two schemas. *)
Definition Table_read_flux (filename : pyval) : M (list flux_row) := λ w,
  match filename with
  | PyStr p =>
      match files w !! p with
      | Some (FluxTable rows) => (w, Ok rows)
      | _ => (w, Raise (LibraryError "Table.read"))
      end
  | _ => (w, Raise (LibraryError "Table.read"))
  end.

Definition Table_read_stats (filename : pyval) : M (list stats_row) := λ w,
  match filename with
  | PyStr p =>
      match files w !! p with
      | Some (StatsTable rows) => (w, Ok rows)
      | _ => (w, Raise (LibraryError "Table.read"))
      end
  | _ => (w, Raise (LibraryError "Table.read"))
  end.

Definition mp_cpu_count : M Z := λ w, (w, Ok (cpu_count w)).

(** [a, b, c = list(zip( *l))] *)
Definition unzip3 {A B C} (l : list (A * B * C))
  : result (list A * list B * list C) :=
  match l with
  | [] => Raise (ValueError NotEnoughValues)
  | _ :: _ => Ok (l.*1.*1, l.*1.*2, l.*2)
  end.

(** [list(row[names])] for the names of a column family: a row refuses an
    empty list of names with an [IndexError]. *)
Definition row_cells {A} (cells : list A) : result (list A) :=
  match cells with
  | [] => Raise IndexError
  | _ :: _ => Ok cells
  end.

(** [column[0]] *)
Definition first_of {A} (column : list A) : result A :=
  match column with
  | [] => Raise IndexError
  | x :: _ => Ok x
  end.

(** ** Command lines and [argparse] namespaces *)

Definition getattr (ns : gmap string pyval) (attr : string) : M pyval :=
  match ns !! attr with
  | Some v => mret v
  | None => raise (AttributeError attr)
  end.

Definition opt_str (o : option string) : pyval :=
  match o with Some s => PyStr s | None => PyNone end.

Definition opt_int (o : option Z) : pyval :=
  match o with Some z => PyInt z | None => PyNone end.

Definition print_help : M unit := print "usage".

Definition sys_exit : M unit := raise SystemExit.

(** [str(v)], as [format] inserts it. *)
Definition py_str (v : pyval) : string :=
  match v with
  | PyNone => "None"
  | PyStr s => s
  | PyBool true => "True"
  | PyBool false => "False"
  | PyInt z => pretty z
  end.

Definition as_int (v : pyval) : M Z :=
  match v with
  | PyInt z => mret z
  | _ => raise TypeError
  end.

(** [mp.Pool(nprocs)] *)
Definition mp_Pool (nprocs : Z) : M unit :=
  if decide (nprocs < 1) then raise (ValueError PoolSize) else mret ().

(** [pool.apply_async(task)] with the returned result object dropped: the
    task runs in a worker process and whatever it raises stays in the
    dropped result object.  Workers are run one after the other, in
    submission order; [pool.close(); pool.join()] then has nothing left to
    wait for. *)
Definition apply_async (task : M unit) : M unit := λ w, ((task w).1, Ok ()).

(** ** [src/scripts/plot_variables.py] *)

Module Scripts.

Definition plot_summary_table (filename plotfile : pyval) : M unit :=
  tab ← Table_read_stats filename;
  let pval_peak_flux := st_pval_peak_flux_ks <$> tab in
  let md := st_md <$> tab in
  let mean_peak_flux := st_mean_peak_flux <$> tab in
  savefig plotfile
    (Summary (scatter md (np_log10 <$> pval_peak_flux)
                         (np_log10 <$> mean_peak_flux))).

Definition fname_of (plot_dir : string) (row : flux_row) : string :=
  plot_dir +:+ "/" +:+ uuid row +:+ ".png".

(** Lines 90 to 113: everything between the existence test and [savefig].
    Line 94 reads [row[epochs]] and line 101 computes [these_epochs] a
    second time, to the same effect. *)
Definition draw (stab : list stats_row) (row : flux_row) : result figure :=
  let srow := filter (λ s, st_uuid s = uuid row) stab in
  rbind (row_cells (epoch_cells row)) (λ epochs,
  rbind (rmap strptime epochs) (λ these_epochs,
  rbind (row_cells (peak_flux_cells row)) (λ fluxes,
  rbind (row_cells (err_peak_flux_cells row)) (λ err_fluxes,
  let zipped_list := zip (zip epochs fluxes) err_fluxes in
  rbind (sorted dt_leb (λ t, strptime t.1.1) zipped_list) (λ sorted_list,
  rbind (unzip3 sorted_list) (λ '(sorted_epoch, sorted_flux, sorted_err_flux),
  rbind (first_of (st_m <$> srow)) (λ m,
  rbind (first_of (st_md <$> srow)) (λ md,
  rbind (first_of (st_chisq_peak_flux <$> srow)) (λ chisq,
  Ok (LightCurve {| lc_x := XLabel <$> sorted_epoch;
                    lc_y := sorted_flux;
                    lc_yerr := sorted_err_flux;
                    lc_label := (m, md, chisq);
                    lc_xlabel := Some "Epoch";
                    lc_title := uuid row |})))))))))).

(** The body of the loop of [plot_lc_table]. *)
Definition plot_row (stab : list stats_row) (plot_dir : string)
    (row : flux_row) : M unit :=
  let fname := fname_of plot_dir row in
  print fname;;
  found ← os_path_exists fname;
  if found : bool then print " ... skip"
  else
    fig ← lift (draw stab row);
    savefig (PyStr fname) fig;;
    print " ... done".

Definition plot_lc_table (flux_table stats_table : pyval)
    (start stride : nat) (plot_dir : string) : M unit :=
  ftab ← Table_read_flux flux_table;
  stab ← Table_read_stats stats_table;
  rows ← lift (py_slice start stride ftab);
  for_each rows (plot_row stab plot_dir).

Definition plot_lc_table_parallel (flux_table stats_table : pyval)
    (light_curve_dir : string) (nprocs : Z) : M unit :=
  mp_Pool nprocs;;
  for_each (seq 0 (Z.to_nat nprocs)) (λ i,
    apply_async
      (plot_lc_table flux_table stats_table i (Z.to_nat nprocs) light_curve_dir)).

Record cli := {
  arg_ftable : option string;
  arg_stable : option string;
  arg_plot : option string;
  arg_all : bool;
  arg_lc_dir : option string;
  arg_dates : bool;
  arg_cores : option Z
}.

(** The namespace [parser.parse_args()] returns: one attribute per [dest],
    holding the argument or its default. *)
Definition parse_args (c : cli) : gmap string pyval :=
  <["ftable" := opt_str (arg_ftable c)]> (
  <["stable" := opt_str (arg_stable c)]> (
  <["plotfile" := opt_str (arg_plot c)]> (
  <["all" := PyBool (arg_all c)]> (
  <["light_curve_dir" := PyStr (default "plots" (arg_lc_dir c))]> (
  <["dates" := PyBool (arg_dates c)]> (
  <["cores" := opt_int (arg_cores c)]> ∅)))))).

Definition error_message : string :=
  "ERROR: --stable and --ftable are both required, only one supplied.".

Definition main (c : cli) : M unit :=
  let results := parse_args c in
  cores ← getattr results "cores";
  results ← (if decide (cores = PyNone)
             then n ← mp_cpu_count; mret (<["cores" := PyInt n]> results)
             else mret results);
  ftable ← getattr results "ftable";
  stable ← getattr results "stable";
  if truthy ftable || truthy stable then
    (if negb (truthy ftable && truthy stable)
     then print error_message else mret ());;
    plotfile ← getattr results "plotfile";
    plot_summary_table stable plotfile;;
    all ← getattr results "all";
    if truthy all then
      light_curve_dir ← getattr results "light_curve_dir";
      cores ← getattr results "cores";
      nprocs ← as_int cores;
      plot_lc_table_parallel ftable stable (py_str light_curve_dir) nprocs
    else mret ()
  else
    print_help;;
    sys_exit.

End Scripts.

(** ** [src/plot_variables.py] *)

Module Db.

(** [sqlite3.connect(name)] followed by [conn.cursor()]: the cursor gives
    access to the relations of the database file. *)
Definition sqlite3_connect (name : pyval) : M database := λ w,
  match name with
  | PyStr p =>
      match files w !! p with
      | Some (Sqlite db) => (w, Ok db)
      | _ => (w, Raise (LibraryError "sqlite3"))
      end
  | _ => (w, Raise (LibraryError "sqlite3"))
  end.

(** [SELECT pval_peak_flux, md, abs(mean_peak_flux) FROM stats
     WHERE pval_peak_flux > 0] *)
Definition select_summary (cur : database) : list (Q * Q * Q) :=
  (λ r, (st_pval_peak_flux r, st_md r, Qabs (st_mean_peak_flux r)))
    <$> List.filter (λ r, Qpositive (st_pval_peak_flux r)) (db_stats cur).

Definition plot_summary (cur : database) (plotfile : pyval) : M unit :=
  let rows := select_summary cur in
  '(pval_peak_flux, md, mean_peak_flux) ← lift (unzip3 rows);
  savefig plotfile
    (Summary (scatter md (np_log10 <$> pval_peak_flux)
                         (np_log10 <$> mean_peak_flux))).

(** [SELECT DISTINCT uuid FROM sources] *)
Definition select_uuids (cur : database) : list string :=
  remove_dups ((λ s, s.1.1.1) <$> db_sources cur).

(** [SELECT peak_flux, err_peak_flux, s.epoch, date FROM sources s
     JOIN epochs e ON s.epoch = e.epoch WHERE uuid=? ORDER BY e.epoch] *)
Definition select_light_curve (cur : database) (u : string)
  : list (Q * Q * Z * string) :=
  let joined :=
    s ← db_sources cur;
    e ← db_epochs cur;
    if decide (s.1.1.1 = u ∧ s.1.1.2 = e.1)
    then [(e.1, (s.1.2, s.2, s.1.1.2, e.2))] else [] in
  snd <$> sort_by Z.leb joined.

Definition unzip4 {A B C D} (l : list (A * B * C * D))
  : result (list A * list B * list C * list D) :=
  match l with
  | [] => Raise (ValueError NotEnoughValues)
  | _ :: _ => Ok (l.*1.*1.*1, l.*1.*1.*2, l.*1.*2, l.*2)
  end.

(** [SELECT m, md, chisq_peak_flux FROM stats WHERE uuid=?], [fetchone()]
    and the unpacking of what it returns. *)
Definition select_stats (cur : database) (u : string) : result (Q * Q * Q) :=
  match filter (λ r, st_uuid r = u) (db_stats cur) with
  | [] => Raise TypeError
  | r :: _ => Ok (st_m r, st_md r, st_chisq_peak_flux r)
  end.

(** The loop of [plot_lc]; [dates] is the local variable of that name, which
    the handler of the date parser's [ValueError] resets for the rest of the
    loop. *)
Fixpoint plot_lc_loop (dateutil_parse : string → option datetime)
    (cur : database) (sources : list string) (dates : bool) : M unit :=
  match sources with
  | [] => mret ()
  | uuid :: sources =>
      let fname := "plots/" +:+ uuid +:+ ".png" in
      print fname;;
      found ← os_path_exists fname;
      if found : bool then
        print " ... skip";;
        plot_lc_loop dateutil_parse cur sources dates
      else
        '(peak_flux, err_peak_flux, epoch, date) ←
          lift (unzip4 (select_light_curve cur uuid));
        '(m, md, chisq_peak_flux) ← lift (select_stats cur uuid);
        '(epoch, dates) ←
          (if dates then
             match mapM dateutil_parse date with
             | Some ds => mret (XDate <$> ds, true)
             | None =>
                 print " ... Unknown date encountered, reverting to epoch plotting";;
                 mret (XEpoch <$> epoch, false)
             end
           else mret (XEpoch <$> epoch, false));
        savefig (PyStr fname)
          (LightCurve {| lc_x := epoch;
                         lc_y := peak_flux;
                         lc_yerr := err_peak_flux;
                         lc_label := (m, md, chisq_peak_flux);
                         lc_xlabel := if dates : bool then None else Some "Epoch";
                         lc_title := uuid |});;
        print " ... done";;
        plot_lc_loop dateutil_parse cur sources dates
  end.

Definition plot_lc (dateutil_parse : string → option datetime)
    (cur : database) (dates : bool) : M unit :=
  plot_lc_loop dateutil_parse cur (select_uuids cur) dates.

Definition plot_summary_table (filename plotfile : pyval) : M unit :=
  tab ← Table_read_stats filename;
  let pval_peak_flux := st_pval_peak_flux <$> tab in
  let md := st_md <$> tab in
  let mean_peak_flux := st_mean_peak_flux <$> tab in
  savefig plotfile
    (Summary (scatter md (np_log10 <$> pval_peak_flux)
                         (np_log10 <$> mean_peak_flux))).

(** [errorbar(x, y, yerr=...)] refuses errors that are not as many as the
    values. *)
Definition errorbar_shapes {A B} (y : list A) (yerr : list B) : result unit :=
  if decide (length yerr = length y) then Ok ()
  else Raise (ValueError ErrorbarShape).

Definition draw (stab : list stats_row) (row : flux_row) : result figure :=
  let srow := filter (λ s, st_uuid s = uuid row) stab in
  rbind (first_of (st_m <$> srow)) (λ m,
  rbind (first_of (st_md <$> srow)) (λ md,
  rbind (first_of (st_chisq_peak_flux <$> srow)) (λ chisq,
  rbind (row_cells (peak_flux_cells row)) (λ fluxes,
  rbind (row_cells (err_peak_flux_cells row)) (λ err_fluxes,
  rbind (errorbar_shapes fluxes err_fluxes) (λ _,
  Ok (LightCurve {| lc_x := XEpoch <$> seqZ 0 (Z.of_nat (length (peak_flux_cells row)));
                    lc_y := fluxes;
                    lc_yerr := err_fluxes;
                    lc_label := (m, md, chisq);
                    lc_xlabel := Some "Epoch";
                    lc_title := uuid row |}))))))).

Definition plot_row (stab : list stats_row) (row : flux_row) : M unit :=
  let fname := "plots/" +:+ uuid row +:+ ".png" in
  print fname;;
  found ← os_path_exists fname;
  if found : bool then print " ... skip"
  else
    fig ← lift (draw stab row);
    savefig (PyStr fname) fig;;
    print " ... done".

Definition plot_lc_table (flux_table stats_table : pyval) : M unit :=
  ftab ← Table_read_flux flux_table;
  stab ← Table_read_stats stats_table;
  for_each ftab (plot_row stab).

Record cli := {
  arg_dbname : option string;
  arg_ftable : option string;
  arg_stable : option string;
  arg_plot : option string;
  arg_all : bool
}.

(** The namespace of this script's parser: [--dbname] is stored under
    [db]; no argument has [name] or [dates] for [dest]. *)
Definition parse_args (c : cli) : gmap string pyval :=
  <["db" := opt_str (arg_dbname c)]> (
  <["ftable" := opt_str (arg_ftable c)]> (
  <["stable" := opt_str (arg_stable c)]> (
  <["plotfile" := opt_str (arg_plot c)]> (
  <["all" := PyBool (arg_all c)]> ∅)))).

Definition main (dateutil_parse : string → option datetime) (c : cli)
  : M unit :=
  let results := parse_args c in
  db ← getattr results "db";
  if truthy db then
    name ← getattr results "name";
    cur ← sqlite3_connect name;
    plotfile ← getattr results "plotfile";
    plot_summary cur plotfile;;
    all ← getattr results "all";
    (if truthy all then
       dates ← getattr results "dates";
       plot_lc dateutil_parse cur (truthy dates)
     else mret ())
  else
    ftable ← getattr results "ftable";
    stable ← getattr results "stable";
    if truthy ftable || truthy stable then
      (if negb (truthy ftable && truthy stable)
       then print Scripts.error_message else mret ());;
      plotfile ← getattr results "plotfile";
      plot_summary_table stable plotfile;;
      all ← getattr results "all";
      if truthy all then plot_lc_table ftable stable else mret ()
    else
      print_help;;
      sys_exit.

End Db.

(** ** Vocabulary of the statements *)

(** The measurements (label, flux, error) of a row, in column order: the
    [zipped_list] of [plot_lc_table]. *)
Definition measurements (row : flux_row) : list (string * Q * Q) :=
  zip (zip (epoch_cells row) (peak_flux_cells row)) (err_peak_flux_cells row).

(** The flux row of source [u] whose epoch columns hold the measurements
    [pts] (label, flux, error), in column order. *)
Definition row_of (u : string) (pts : list (string * Q * Q)) : flux_row :=
  {| uuid := u; epoch_cells := pts.*1.*1; peak_flux_cells := pts.*1.*2;
     err_peak_flux_cells := pts.*2 |}.

(** The time at which a point sits on the horizontal axis. *)
Definition time_of (x : xval) : result datetime :=
  match x with
  | XLabel a => strptime a
  | XEpoch _ => Raise TypeError
  | XDate d => Ok d
  end.

(** The points of a light curve, in plotting order. *)
Definition plotted (lc : light_curve) : list (xval * Q * Q) :=
  zip (zip (lc_x lc) (lc_y lc)) (lc_yerr lc).

(** The light curve [plot_lc_table] draws from the sorted measurements [sl]
    and the statistics row [s]. *)
Definition lc_of (u : string) (s : stats_row) (sl : list (string * Q * Q))
  : light_curve :=
  {| lc_x := XLabel <$> sl.*1.*1;
     lc_y := sl.*1.*2;
     lc_yerr := sl.*2;
     lc_label := (st_m s, st_md s, st_chisq_peak_flux s);
     lc_xlabel := Some "Epoch";
     lc_title := u |}.


(** The timestamp of a label that parses. *)
Definition tm (a : string) : datetime :=
  default (mk_datetime 0 0 0 0 0 0) (parse_datetime a).

(** The measurements paired with their sort keys. *)
Definition decorate (pts : list (string * Q * Q))
  : list (datetime * (string * Q * Q)) :=
  (λ p, (tm p.1.1, p)) <$> pts.

(** The order [sort_by] sorts by. *)
Definition key_le {A K} (leb : K → K → bool) (x y : K * A) : Prop :=
  leb x.1 y.1 = true.

(** The marker of a row of the statistics in the summary plot of the
    flat-table script, and the rows [scatter] has a marker for. *)
Definition table_marker (r : stats_row) : point :=
  {| pt_x := st_md r;
     pt_y := Log10 (st_pval_peak_flux_ks r);
     pt_c := Log10 (st_mean_peak_flux r) |}.

Definition table_shown (r : stats_row) : bool :=
  Qpositive (st_pval_peak_flux_ks r) && Qpositive (st_mean_peak_flux r).



(** A row of a flux table that has columns in each of the three families
    [epoch*], [peak_flux*] and [err_peak_flux*]. *)
Definition has_columns (row : flux_row) : Prop :=
  epoch_cells row ≠ [] ∧ peak_flux_cells row ≠ [] ∧
  err_peak_flux_cells row ≠ [].

(** What a worker that runs to its end prints for the rows [rows], none of
    which shares its uuid with another, when it starts in the world [w]. *)
Definition logged (plot_dir : string) (w : world) (rows : list flux_row)
  : list string :=
  flat_map (λ row,
    [Scripts.fname_of plot_dir row;
     if bool_decide (is_Some (files w !! Scripts.fname_of plot_dir row))
     then " ... skip" else " ... done"]) rows.

(** The light curves of the rows [rows] that can be drawn, at their output
    paths; of two rows with one path the first counts. *)
Definition drawn (stab : list stats_row) (plot_dir : string)
    (rows : list flux_row) : gmap string file :=
  list_to_map
    (omap (λ row,
       match Scripts.draw stab row with
       | Ok fig => Some (Scripts.fname_of plot_dir row, Png fig)
       | Raise _ => None
       end) rows).

(** ** Example data *)

Definition stats_of (u : string) (pval : Q) : stats_row :=
  {| st_uuid := u; st_m := 1 # 100; st_md := 2 # 100;
     st_chisq_peak_flux := 3 # 2; st_pval_peak_flux := pval;
     st_pval_peak_flux_ks := pval; st_mean_peak_flux := 1 # 10 |}.

Definition src_a : flux_row :=
  row_of "a" [("2020-01-03T00:00:00", 3 # 1, 3 # 10);
              ("2020-01-01T00:00:00", 1 # 1, 1 # 10);
              ("2020-01-02T00:00:00", 2 # 1, 2 # 10)].

(** The light curve of [src_a]. *)
Definition lc_a : light_curve :=
  lc_of "a" (stats_of "a" (1 # 2))
    [("2020-01-01T00:00:00", 1 # 1, 1 # 10);
     ("2020-01-02T00:00:00", 2 # 1, 2 # 10);
     ("2020-01-03T00:00:00", 3 # 1, 3 # 10)].

Definition src_b : flux_row :=
  row_of "b" [("2020-01-01T00:00:00", 5 # 1, 1 # 10);
              ("02/01/2020 00:00", 6 # 1, 1 # 10)].

Definition src_c : flux_row :=
  row_of "c" [("2020-01-01T00:00:00", 7 # 1, 1 # 10)].

Definition src_d : flux_row :=
  row_of "d" [("2020-01-01T00:00:00", 8 # 1, 1 # 10)].

Definition some_figure : figure := Summary [].

Definition world_of (fs : list (string * file)) : world :=
  {| files := list_to_map fs; stdout := []; cpu_count := 2 |}.

(** A flux table with the sources [a], [c], [d] and their statistics. *)
Definition good_world : world :=
  world_of [("flux.fits", FluxTable [src_a; src_c; src_d]);
            ("stats.fits", StatsTable [stats_of "a" (1 # 2); stats_of "c" (-1);
                                       stats_of "d" (1 # 1000)])].

(** As [good_world], with the light curves of [a] and [c] in place. *)
Definition two_done_world : world :=
  world_of [("flux.fits", FluxTable [src_a; src_c; src_d]);
            ("stats.fits", StatsTable [stats_of "a" (1 # 2); stats_of "c" (-1);
                                       stats_of "d" (1 # 1000)]);
            ("plots/a.png", Png some_figure);
            ("plots/c.png", Png some_figure)].

(** As [good_world], with the ill-labelled source [b] between [a] and [c]. *)
Definition bad_label_world : world :=
  world_of [("flux.fits", FluxTable [src_a; src_b; src_c]);
            ("stats.fits", StatsTable [stats_of "a" (1 # 2);
                                       stats_of "b" (1 # 2);
                                       stats_of "c" (1 # 2)])].

(** As [bad_label_world], with a light curve of [b] already in place. *)
Definition bad_label_done_world : world :=
  world_of [("flux.fits", FluxTable [src_a; src_b; src_c]);
            ("stats.fits", StatsTable [stats_of "a" (1 # 2);
                                       stats_of "b" (1 # 2);
                                       stats_of "c" (1 # 2)]);
            ("plots/b.png", Png some_figure)].

(** The statistics of [c] are missing; a light curve of [c] is in place. *)
Definition no_stats_done_world : world :=
  world_of [("flux.fits", FluxTable [src_a; src_c]);
            ("stats.fits", StatsTable [stats_of "a" (1 # 2)]);
            ("plots/c.png", Png some_figure)].






Definition cli_only_ftable : Scripts.cli :=
  {| Scripts.arg_ftable := Some "flux.fits"; Scripts.arg_stable := None;
     Scripts.arg_plot := Some "summary.png"; Scripts.arg_all := true;
     Scripts.arg_lc_dir := None; Scripts.arg_dates := false;
     Scripts.arg_cores := None |}.

Definition cli_only_stable : Scripts.cli :=
  {| Scripts.arg_ftable := None; Scripts.arg_stable := Some "stats.fits";
     Scripts.arg_plot := Some "summary.png"; Scripts.arg_all := true;
     Scripts.arg_lc_dir := None; Scripts.arg_dates := false;
     Scripts.arg_cores := None |}.

Definition cli_empty_stable : Scripts.cli :=
  {| Scripts.arg_ftable := None; Scripts.arg_stable := Some "";
     Scripts.arg_plot := Some "summary.png"; Scripts.arg_all := true;
     Scripts.arg_lc_dir := None; Scripts.arg_dates := false;
     Scripts.arg_cores := None |}.

Definition cli_both (cores : option Z) : Scripts.cli :=
  {| Scripts.arg_ftable := Some "flux.fits";
     Scripts.arg_stable := Some "stats.fits";
     Scripts.arg_plot := Some "summary.png"; Scripts.arg_all := true;
     Scripts.arg_lc_dir := None; Scripts.arg_dates := false;
     Scripts.arg_cores := cores |}.

Definition cli_db (name : string) : Db.cli :=
  {| Db.arg_dbname := Some name; Db.arg_ftable := None;
     Db.arg_stable := Some "stats.fits"; Db.arg_plot := Some "summary.png";
     Db.arg_all := false |}.

(** A date parser for the database path that accepts the fixed format only. *)
Definition iso_dates (s : string) : option datetime := parse_datetime s.

(** A source with three epoch columns and two flux columns. *)
Definition src_short : flux_row :=
  {| uuid := "s";
     epoch_cells := ["2020-01-02T00:00:00"; "2020-01-01T00:00:00";
                     "2020-01-03T00:00:00"];
     peak_flux_cells := [2 # 1; 1 # 1];
     err_peak_flux_cells := [2 # 10; 1 # 10; 3 # 10] |}.

(** A source stored in time order, with two measurements at one time. *)
Definition src_e : flux_row :=
  row_of "e" [("2020-01-01T00:00:00", 1 # 1, 1 # 10);
              ("2020-1-1T0:0:0", 2 # 1, 2 # 10);
              ("2020-01-02T00:00:00", 3 # 1, 3 # 10)].

(** A second statistics row for the source [a]. *)
Definition stats_a' : stats_row :=
  {| st_uuid := "a"; st_m := 9 # 1; st_md := 9 # 1;
     st_chisq_peak_flux := 9 # 1; st_pval_peak_flux := 1 # 2;
     st_pval_peak_flux_ks := 1 # 2; st_mean_peak_flux := 1 # 10 |}.

Definition cli_missing_ftable : Scripts.cli :=
  {| Scripts.arg_ftable := Some "missing.fits";
     Scripts.arg_stable := Some "stats.fits";
     Scripts.arg_plot := Some "summary.png"; Scripts.arg_all := true;
     Scripts.arg_lc_dir := None; Scripts.arg_dates := false;
     Scripts.arg_cores := None |}.

(** A database: the source [a] was measured at the epochs 2 and 1, the
    date of epoch 2 is no date; [b] has no statistics; the epoch of [c] is
    not listed. *)
Definition lc_db : database :=
  {| db_sources := [("a", 2, 2 # 1, 2 # 10); ("a", 1, 1 # 1, 1 # 10);
                    ("b", 1, 5 # 1, 1 # 10); ("c", 7, 6 # 1, 1 # 10)];
     db_epochs := [(1, "2020-01-01T00:00:00"); (2, "yesterday")];
     db_stats := [stats_of "a" (1 # 2)] |}.

(** The part of [lc_db] that concerns the source [a]. *)
Definition lc_db_a : database :=
  {| db_sources := [("a", 2, 2 # 1, 2 # 10); ("a", 1, 1 # 1, 1 # 10)];
     db_epochs := [(1, "2020-01-01T00:00:00"); (2, "yesterday")];
     db_stats := [stats_of "a" (1 # 2)] |}.

(** Statistics without a positive p-value. *)
Definition nonpositive_db : database :=
  {| db_sources := []; db_epochs := [];
     db_stats := [stats_of "s2" (-1); stats_of "s4" 0] |}.

(** As [lc_db_a], with dates that decrease as the epoch numbers grow. *)
Definition lc_db_dated : database :=
  {| db_sources := [("a", 2, 2 # 1, 2 # 10); ("a", 1, 1 # 1, 1 # 10)];
     db_epochs := [(1, "2020-01-02T00:00:00"); (2, "2020-01-01T00:00:00")];
     db_stats := [stats_of "a" (1 # 2)] |}.

(** * Properties *)

#[local] Set Warnings "-clear-no-such-hyp".

(** ** The model at work *)

Example strptime_padded :
  strptime "2020-05-29T13:04:05" = Ok (mk_datetime 2020 5 29 13 4 5).
Proof. reflexivity. Qed.

Example strptime_unpadded :
  strptime "2020-5-9t3:4:5" = Ok (mk_datetime 2020 5 9 3 4 5).
Proof. reflexivity. Qed.

Example strptime_leap_day :
  is_ok (strptime "2020-02-29T00:00:00") = true ∧
  is_ok (strptime "2021-02-29T00:00:00") = false.
Proof. split; reflexivity. Qed.

Example strptime_rejects :
  is_ok <$> (strptime <$> ["2020-02-29 13:04:05"; "2020-02-29T13:04:05Z";
                           "2020-02-29T13:04:60"; "2020-13-01T00:00:00";
                           "20-01-01T00:00:00"; ""]) =
  [false; false; false; false; false; false].
Proof. reflexivity. Qed.

(** To [\d] the decimal digits of every script are digits: the year, and the
    second digit of a day, an hour, a minute or a second, can be written
    with them; the month cannot. *)
Example strptime_other_digits :
  strptime "2020-01-01T00:00:0３" = Ok (mk_datetime 2020 1 1 0 0 3) ∧
  strptime "٢٠٢٠-01-1٥T०:4:5" = Ok (mk_datetime 2020 1 15 0 4 5) ∧
  is_ok (strptime "2020-0１-01T00:00:00") = false.
Proof. repeat split; vm_compute; reflexivity. Qed.

(** The file [savefig] writes. *)
Example savefig_paths :
  savefig_path "summary.png" = Ok "summary.png" ∧
  savefig_path "summary" = Ok "summary.png" ∧
  savefig_path "summary." = Ok "summary.png" ∧
  savefig_path "plots.d/summary" = Ok "plots.d/summary.png" ∧
  savefig_path "out/summary.PDF" = Ok "out/summary.PDF" ∧
  savefig_path "summary.txt" = Raise (ValueError (UnsupportedFormat "txt")).
Proof. repeat split; vm_compute; reflexivity. Qed.

(** [scatter] leaves out the markers with a coordinate or a colour that is
    not finite. *)
Example scatter_masks :
  scatter [1 # 1; 2 # 1; 3 # 1; 4 # 1]
    (np_log10 <$> [1 # 2; 0; 1 # 3; -1]%Q)
    (np_log10 <$> [1 # 5; 1 # 5; 0; 1 # 5]%Q) =
  [{| pt_x := 1 # 1; pt_y := Log10 (1 # 2); pt_c := Log10 (1 # 5) |}].
Proof. reflexivity. Qed.

(** A row of a table without columns of one of the families, and errors
    that are not as many as the fluxes. *)
Example draw_without_columns :
  Scripts.draw [stats_of "e" (1 # 2)] (row_of "e" []) = Raise IndexError ∧
  Db.draw [stats_of "e" (1 # 2)] (row_of "e" []) = Raise IndexError ∧
  Db.draw [stats_of "e" (1 # 2)]
    {| uuid := "e"; epoch_cells := []; peak_flux_cells := [1 # 1; 2 # 1];
       err_peak_flux_cells := [1 # 10] |} =
    Raise (ValueError ErrorbarShape).
Proof. repeat split; vm_compute; reflexivity. Qed.

Example py_slice_strides :
  py_slice 0 3 [10; 11; 12; 13; 14; 15; 16; 17] = Ok [10; 13; 16] ∧
  py_slice 1 3 [10; 11; 12; 13; 14; 15; 16; 17] = Ok [11; 14; 17] ∧
  py_slice 2 3 [10; 11; 12; 13; 14; 15; 16; 17] = Ok [12; 15] ∧
  py_slice 9 3 [10; 11; 12; 13; 14; 15; 16; 17] = Ok [] ∧
  py_slice 0 0 [10; 11; 12] = Raise (ValueError SliceStepZero).
Proof. repeat split; reflexivity. Qed.

(** Measurements with one and the same timestamp stay in column order. *)
Example sorted_keeps_ties :
  sorted dt_leb (λ t : string * Q * Q, strptime t.1.1)
    [("2020-01-02T00:00:00", 1 # 1, 0%Q); ("2020-01-01T00:00:00", 2 # 1, 0%Q);
     ("2020-1-1T0:0:0", 3 # 1, 0%Q)] =
  Ok [("2020-01-01T00:00:00", 2 # 1, 0%Q); ("2020-1-1T0:0:0", 3 # 1, 0%Q);
      ("2020-01-02T00:00:00", 1 # 1, 0%Q)] ∧
  sorted dt_leb (λ t : string * Q * Q, strptime t.1.1)
    [("2020-1-1T0:0:0", 3 # 1, 0%Q); ("2020-01-02T00:00:00", 1 # 1, 0%Q);
     ("2020-01-01T00:00:00", 2 # 1, 0%Q)] =
  Ok [("2020-1-1T0:0:0", 3 # 1, 0%Q); ("2020-01-01T00:00:00", 2 # 1, 0%Q);
      ("2020-01-02T00:00:00", 1 # 1, 0%Q)].
Proof. split; reflexivity. Qed.

(** The scenario of three sources of which two have their file: one new
    file. *)
Example one_missing_file :
  dom (files (Scripts.plot_lc_table (PyStr "flux.fits") (PyStr "stats.fits")
                0 1 "plots" two_done_world).1) =
  dom (files two_done_world) ∪ {["plots/d.png"]} ∧
  stdout (Scripts.plot_lc_table (PyStr "flux.fits") (PyStr "stats.fits")
            0 1 "plots" two_done_world).1 =
  ["plots/a.png"; " ... skip"; "plots/c.png"; " ... skip";
   "plots/d.png"; " ... done"].
Proof. split; vm_compute; reflexivity. Qed.

(** ** Computations *)

Lemma bind_ret_l {A B} (a : A) (k : A → M B) w : (mret a ≫= k) w = k a w.
Proof. reflexivity. Qed.

Lemma emit_emit a b w : emit b (emit a w) = emit (a ++ b) w.
Proof. unfold emit. simpl. by rewrite app_assoc. Qed.


(** ** Names that end in [.png] *)

Lemma ends_in_png_app a b :
  ends_in_png b = true → ends_in_png (a +:+ b) = true.
Proof.
  intros Hb. induction a as [|c a IH]; [done|].
  change (String c a +:+ b) with (String c (a +:+ b)).
  cbn [ends_in_png]. rewrite IH. by destruct (String.eqb _ _).
Qed.

Lemma savefig_png_extension p fig w :
  splitext_format p = "png" →
  savefig (PyStr p) fig w = (write_file p (Png fig) w, Ok ()).
Proof.
  intros Hp. unfold savefig, savefig_path. rewrite Hp.
  by destruct (ends_in_png p).
Qed.

Lemma savefig_ends_in_png p fig w :
  ends_in_png p = true →
  savefig (PyStr p) fig w = (write_file p (Png fig) w, Ok ()).
Proof. intros Hp. unfold savefig, savefig_path. by rewrite Hp. Qed.

Lemma ends_in_png_plots u : ends_in_png ("plots/" +:+ u +:+ ".png") = true.
Proof. by do 2 apply ends_in_png_app. Qed.

Lemma savefig_path_fname_of dir row :
  savefig_path (Scripts.fname_of dir row) = Ok (Scripts.fname_of dir row).
Proof.
  unfold savefig_path, Scripts.fname_of.
  rewrite ends_in_png_app; [done|].
  by do 2 apply ends_in_png_app.
Qed.

(** ** The loop of [plot_lc_table] *)

Ltac unfold_M :=
  unfold mbind, mret, M_bind, M_ret, print, os_path_exists, lift, raise,
    savefig, Table_read_flux, Table_read_stats, mp_cpu_count, getattr,
    as_int, mp_Pool, apply_async, print_help, sys_exit in *.

Lemma plot_row_eq stab dir row w :
  Scripts.plot_row stab dir row w =
  if bool_decide (is_Some (files w !! Scripts.fname_of dir row))
  then (emit [Scripts.fname_of dir row; " ... skip"] w, Ok ())
  else match Scripts.draw stab row with
       | Ok fig =>
           (emit [" ... done"]
              (write_file (Scripts.fname_of dir row) (Png fig)
                 (emit [Scripts.fname_of dir row] w)), Ok ())
       | Raise e => (emit [Scripts.fname_of dir row] w, Raise e)
       end.
Proof.
  unfold Scripts.plot_row. unfold_M. rewrite savefig_path_fname_of. simpl.
  destruct (bool_decide _); [by rewrite emit_emit|].
  by destruct (Scripts.draw stab row).
Qed.

Lemma for_each_cons {A} (x : A) l body w :
  for_each (x :: l) body w =
  match body x w with
  | (w', Ok _) => for_each l body w'
  | (w', Raise e) => (w', Raise e)
  end.
Proof. reflexivity. Qed.

(** Files that exist are never touched by the loop. *)
Lemma plot_row_keeps stab dir row w p f :
  files w !! p = Some f →
  files (Scripts.plot_row stab dir row w).1 !! p = Some f.
Proof.
  intros Hp. rewrite plot_row_eq.
  destruct (bool_decide_reflect (is_Some (files w !! Scripts.fname_of dir row)))
    as [Hex|Hex]; [done|].
  destruct (Scripts.draw stab row); [|done]. simpl.
  rewrite lookup_insert_ne; [done|]. intros <-. apply Hex. eauto.
Qed.

Lemma for_each_keeps stab dir rows w p f :
  files w !! p = Some f →
  files (for_each rows (Scripts.plot_row stab dir) w).1 !! p = Some f.
Proof.
  revert w. induction rows as [|row rows IH]; intros w Hp; [done|].
  rewrite for_each_cons.
  pose proof (plot_row_keeps stab dir row w p f Hp) as Hk.
  destruct (Scripts.plot_row stab dir row w) as [w' [[]|e]]; simpl in *; auto.
Qed.


Lemma for_each_done stab dir rows w w1 :
  for_each rows (Scripts.plot_row stab dir) w = (w1, Ok ()) →
  ∀ row, row ∈ rows → is_Some (files w1 !! Scripts.fname_of dir row).
Proof.
  revert w. induction rows as [|row rows IH]; intros w Hrun r Hr.
  - by apply elem_of_nil in Hr.
  - rewrite for_each_cons in Hrun.
    destruct (Scripts.plot_row stab dir row w) as [w' [[]|e]] eqn:Hrow; [|done].
    apply elem_of_cons in Hr as [->|Hr]; [|by eapply IH].
    assert (is_Some (files w' !! Scripts.fname_of dir row)) as [f Hf].
    { rewrite plot_row_eq in Hrow.
      destruct (bool_decide_reflect (is_Some (files w !! Scripts.fname_of dir row)))
        as [Hex|Hex].
      - by injection Hrow as <-.
      - destruct (Scripts.draw stab row); [|done]. injection Hrow as <-.
        simpl. rewrite lookup_insert_eq. eauto. }
    exists f. pose proof (for_each_keeps stab dir rows w' _ _ Hf) as Hk.
    by rewrite Hrun in Hk.
Qed.



Lemma plot_lc_table_run f s ftab stab rows start stride dir w :
  files w !! f = Some (FluxTable ftab) →
  files w !! s = Some (StatsTable stab) →
  py_slice start stride ftab = Ok rows →
  Scripts.plot_lc_table (PyStr f) (PyStr s) start stride dir w =
  for_each rows (Scripts.plot_row stab dir) w.
Proof.
  intros Hf Hs Hsl. unfold Scripts.plot_lc_table. unfold_M.
  by rewrite Hf, Hs, Hsl.
Qed.





(** ** Exceptions of the pure parts *)

Lemma rmap_raise {A B} (f : A → result B) l e :
  rmap f l = Raise e → ∃ x, x ∈ l ∧ f x = Raise e.
Proof.
  induction l as [|x l IH]; simpl; [done|].
  destruct (f x) as [y|e'] eqn:Hx; simpl.
  - destruct (rmap f l) as [ys|e'']; simpl; [done|].
    intros [= ->]. destruct IH as (x' & ? & ?); [done|].
    exists x'. split; [by right|done].
  - intros [= ->]. exists x. split; [by left|done].
Qed.

Lemma rmap_ok {A B} (f : A → result B) (g : A → B) l :
  (∀ x, x ∈ l → f x = Ok (g x)) → rmap f l = Ok (g <$> l).
Proof.
  induction l as [|x l IH]; intros H; simpl; [done|].
  rewrite (H x) by left. simpl. rewrite IH; [done|].
  intros y Hy. apply H. by right.
Qed.

Lemma strptime_raise a e :
  strptime a = Raise e → e = ValueError (TimeDataMismatch a).
Proof. unfold strptime. destruct (parse_datetime a); congruence. Qed.

Lemma rmap_strptime_fail l :
  (∃ a, a ∈ l ∧ is_ok (strptime a) = false) →
  ∃ a, a ∈ l ∧ is_ok (strptime a) = false ∧
       rmap strptime l = Raise (ValueError (TimeDataMismatch a)).
Proof.
  induction l as [|x l IH]; intros (a & Ha & Hbad).
  - by apply elem_of_nil in Ha.
  - simpl. destruct (strptime x) as [d|e] eqn:Hx.
    + apply elem_of_cons in Ha as [->|Ha]; [by rewrite Hx in Hbad|].
      destruct IH as (b & Hb & Hbb & ->); [eauto|].
      exists b. split; [by right|done].
    + apply strptime_raise in Hx as Hx'. subst e.
      exists x. split; [by left|]. by rewrite Hx.
Qed.

Lemma for_each_app {A} (l1 l2 : list A) body w :
  for_each (l1 ++ l2) body w =
  match for_each l1 body w with
  | (w1, Ok _) => for_each l2 body w1
  | (w1, Raise e) => (w1, Raise e)
  end.
Proof.
  revert w. induction l1 as [|x l1 IH]; intros w; [done|].
  simpl. unfold mbind, M_bind.
  destruct (body x w) as [w' [[]|e]]; [apply IH|done].
Qed.

Lemma for_each_always_ok {A} (l : list A) body w :
  (∀ x w0, (body x w0).2 = Ok ()) → (for_each l body w).2 = Ok ().
Proof.
  intros Hb. revert w. induction l as [|x l IH]; intros w; [done|].
  simpl. unfold mbind, M_bind. specialize (Hb x w).
  destruct (body x w) as [w' [[]|e]]; [apply IH|done].
Qed.

Lemma parallel_returns ft st dir N w :
  1 ≤ N → (Scripts.plot_lc_table_parallel ft st dir N w).2 = Ok ().
Proof.
  intros HN. unfold Scripts.plot_lc_table_parallel, mp_Pool.
  destruct (decide (N < 1)); [lia|].
  unfold mbind at 1, M_bind at 1, mret, M_ret.
  by apply for_each_always_ok.
Qed.

Lemma row_cells_ok {A} (l : list A) : l ≠ [] → row_cells l = Ok l.
Proof. by destruct l. Qed.

Lemma draw_parse_failure stab row :
  (∃ a, a ∈ epoch_cells row ∧ is_ok (strptime a) = false) →
  ∃ a, a ∈ epoch_cells row ∧ is_ok (strptime a) = false ∧
       Scripts.draw stab row = Raise (ValueError (TimeDataMismatch a)).
Proof.
  intros H. apply rmap_strptime_fail in H as (a & Ha & Hbad & Hr).
  exists a. split; [done|]. split; [done|].
  unfold Scripts.draw. rewrite row_cells_ok; [simpl; by rewrite Hr|].
  intros E. rewrite E in Ha. by apply elem_of_nil in Ha.
Qed.

(** C5, amended.  When a worker reaches a row whose output path does not
    exist yet and one of whose epoch labels does not match the format,
    [strptime] raises its [ValueError]: the worker ends with it, after the
    file name of the row was printed and before any later row of its slice
    is touched.  The task submitted with [apply_async] returns all the same,
    and so does [plot_lc_table_parallel]. *)
Theorem parse_failure_aborts_worker
    f s ftab stab start stride dir w pre row rest w1 :
  files w !! f = Some (FluxTable ftab) →
  files w !! s = Some (StatsTable stab) →
  py_slice start stride ftab = Ok (pre ++ row :: rest) →
  for_each pre (Scripts.plot_row stab dir) w = (w1, Ok ()) →
  files w1 !! Scripts.fname_of dir row = None →
  (∃ a, a ∈ epoch_cells row ∧ is_ok (strptime a) = false) →
  (∃ a, a ∈ epoch_cells row ∧ is_ok (strptime a) = false ∧
     Scripts.plot_lc_table (PyStr f) (PyStr s) start stride dir w =
       (emit [Scripts.fname_of dir row] w1,
        Raise (ValueError (TimeDataMismatch a)))) ∧
  apply_async (Scripts.plot_lc_table (PyStr f) (PyStr s) start stride dir) w =
    (emit [Scripts.fname_of dir row] w1, Ok ()) ∧
  (∀ N w0, 1 ≤ N →
     (Scripts.plot_lc_table_parallel (PyStr f) (PyStr s) dir N w0).2 = Ok ()).
Proof.
  intros Hf Hs Hsl Hpre Hnew Hbad.
  apply (draw_parse_failure stab) in Hbad as (a & Ha & Hbad & Hdraw).
  assert (Scripts.plot_lc_table (PyStr f) (PyStr s) start stride dir w =
            (emit [Scripts.fname_of dir row] w1,
             Raise (ValueError (TimeDataMismatch a)))) as Hrun.
  { rewrite (plot_lc_table_run f s ftab stab (pre ++ row :: rest)) by done.
    rewrite for_each_app, Hpre, for_each_cons, plot_row_eq.
    rewrite bool_decide_eq_false_2 by (rewrite Hnew; by intros [? ?]).
    by rewrite Hdraw. }
  split; [by exists a|]. split.
  - unfold apply_async. by rewrite Hrun.
  - intros N w0 HN. by apply parallel_returns.
Qed.

Lemma sorted_raise {A} (key : A → result datetime) l e :
  sorted dt_leb key l = Raise e → ∃ x, x ∈ l ∧ key x = Raise e.
Proof.
  unfold sorted.
  destruct (rmap _ l) as [dl|e'] eqn:Hr; simpl; [done|].
  intros [= ->]. apply rmap_raise in Hr as (x & Hx & Hk).
  exists x. split; [done|]. destruct (key x); simpl in Hk; congruence.
Qed.

Lemma draw_raise stab row e :
  Scripts.draw stab row = Raise e →
  (∃ why, e = ValueError why) ∨
  (e = IndexError ∧
   (epoch_cells row = [] ∨ peak_flux_cells row = [] ∨
    err_peak_flux_cells row = [] ∨
    filter (λ s, st_uuid s = uuid row) stab = [])).
Proof.
  unfold Scripts.draw.
  destruct (epoch_cells row) as [|a0 epochs] eqn:He;
    [intros [= <-]; right; auto|]. cbn [row_cells rbind].
  destruct (rmap strptime (a0 :: epochs)) as [ts|e1] eqn:H1; cbn [rbind].
  2:{ intros [= ->]. apply rmap_raise in H1 as (a & _ & Ha).
      apply strptime_raise in Ha. left. eauto. }
  destruct (peak_flux_cells row) as [|y0 fluxes] eqn:Hf;
    [intros [= <-]; right; auto|]. cbn [row_cells rbind].
  destruct (err_peak_flux_cells row) as [|r0 errs] eqn:Hr;
    [intros [= <-]; right; auto|]. cbn [row_cells rbind].
  destruct (sorted _ _ _) as [sl|e2] eqn:H2; cbn [rbind].
  2:{ intros [= ->]. apply sorted_raise in H2 as (a & _ & Ha).
      apply strptime_raise in Ha. left. eauto. }
  destruct (unzip3 sl) as [[[se sf] serr]|e3] eqn:H3; cbn [rbind].
  2:{ intros [= ->]. destruct sl; [|done]. injection H3 as <-. left. eauto. }
  destruct (filter _ stab) as [|s0 srow]; simpl; [|done].
  intros [= <-]. right. auto.
Qed.

(** ** The order of timestamps *)

Lemma lex_compare_antisym a b : lex_compare b a = CompOpp (lex_compare a b).
Proof.
  revert b. induction a as [|x a IH]; intros [|y b]; simpl; try done.
  rewrite (N.compare_antisym x y).
  destruct (x ?= y)%N; simpl; auto.
Qed.

Lemma lex_compare_eq a b : lex_compare a b = Eq → a = b.
Proof.
  revert b. induction a as [|x a IH]; intros [|y b]; simpl; try done.
  destruct (N.compare_spec x y); try done.
  intros ?%IH. congruence.
Qed.

Lemma lex_compare_trans a b c :
  lex_compare a b ≠ Gt → lex_compare b c ≠ Gt → lex_compare a c ≠ Gt.
Proof.
  revert b c. induction a as [|x a IH]; intros [|y b] [|z c]; simpl; try done.
  destruct (N.compare_spec x y), (N.compare_spec y z), (N.compare_spec x z);
    try done; try lia; eauto.
Qed.

Lemma dt_fields_inj a b : dt_fields a = dt_fields b → a = b.
Proof. destruct a, b. unfold dt_fields. simpl. congruence. Qed.

#[local] Instance dt_le_total : Total dt_le.
Proof.
  intros a b. unfold dt_le, dt_leb, dt_compare.
  rewrite (lex_compare_antisym (dt_fields a) (dt_fields b)).
  destruct (lex_compare (dt_fields a) (dt_fields b)); simpl; auto.
Qed.

#[local] Instance dt_le_trans : Transitive dt_le.
Proof.
  intros a b c. unfold dt_le, dt_leb, dt_compare. intros H1 H2.
  pose proof (lex_compare_trans (dt_fields a) (dt_fields b) (dt_fields c)) as H.
  destruct (lex_compare (dt_fields a) (dt_fields b)),
    (lex_compare (dt_fields b) (dt_fields c)),
    (lex_compare (dt_fields a) (dt_fields c)); try done;
    exfalso; by apply H.
Qed.

#[local] Instance dt_le_antisym : AntiSymm (=) dt_le.
Proof.
  intros a b. unfold dt_le, dt_leb, dt_compare. intros H1 H2.
  apply dt_fields_inj, lex_compare_eq.
  rewrite (lex_compare_antisym (dt_fields a) (dt_fields b)) in H2.
  by destruct (lex_compare (dt_fields a) (dt_fields b)).
Qed.

(** ** [sort_by] is a stable sort *)

Section sort_by.
Context {A K : Type} (leb : K → K → bool).
Context (le_total : ∀ a b, leb a b = true ∨ leb b a = true).

Lemma insert_by_Permutation (x : K * A) l : insert_by leb x l ≡ₚ x :: l.
Proof.
  induction l as [|y l IH]; simpl; [done|].
  destruct (leb x.1 y.1); [done|]. rewrite IH. apply Permutation_swap.
Qed.

Lemma sort_by_Permutation (l : list (K * A)) : sort_by leb l ≡ₚ l.
Proof.
  induction l as [|x l IH]; simpl; [done|].
  by rewrite insert_by_Permutation, IH.
Qed.

Lemma insert_by_Sorted (x : K * A) l :
  Sorted (key_le leb) l → Sorted (key_le leb) (insert_by leb x l).
Proof.
  induction 1 as [|y l Hs IH Hhd]; simpl.
  - repeat constructor.
  - destruct (leb x.1 y.1) eqn:Hxy.
    + constructor; [by constructor|]. by constructor.
    + constructor; [done|].
      assert (key_le leb y x) as Hyx.
      { destruct (le_total x.1 y.1); [congruence|done]. }
      destruct Hhd as [|z l Hyz]; simpl; [by constructor|].
      destruct (leb x.1 z.1); by constructor.
Qed.

Lemma sort_by_Sorted (l : list (K * A)) : Sorted (key_le leb) (sort_by leb l).
Proof.
  induction l as [|x l IH]; simpl; [constructor|by apply insert_by_Sorted].
Qed.

(** Stability: elements with one and the same key keep their order. *)
Lemma insert_by_filter (P : K * A → Prop) `{∀ x, Decision (P x)}
    (x : K * A) l :
  (∀ y, y ∈ l → P x → P y → leb x.1 y.1 = true) →
  filter P (insert_by leb x l) = filter P (x :: l).
Proof.
  induction l as [|y l IH]; intros Hle; simpl; [done|].
  destruct (leb x.1 y.1) eqn:Hxy; [done|].
  rewrite filter_cons, IH by (intros; apply Hle; [by right|done..]).
  rewrite !filter_cons.
  destruct (decide (P y)) as [Py|]; [|done].
  destruct (decide (P x)) as [Px|]; [|done].
  rewrite Hle in Hxy; [done|by left|done..].
Qed.

Lemma sort_by_stable (le_refl : ∀ a, leb a a = true) (k : K)
    `{∀ x : K * A, Decision (x.1 = k)} (l : list (K * A)) :
  filter (λ x, x.1 = k) (sort_by leb l) = filter (λ x, x.1 = k) l.
Proof.
  induction l as [|x l IH]; simpl; [done|].
  rewrite insert_by_filter.
  - by rewrite !filter_cons, IH.
  - intros y _ -> <-. apply le_refl.
Qed.
End sort_by.

(** ** [sorted] on the measurements of a row *)

Lemma strptime_tm a : is_ok (strptime a) = true → strptime a = Ok (tm a).
Proof. unfold strptime, tm. by destruct (parse_datetime a). Qed.

Lemma rmap_ok_inv {A B} (f : A → result B) l ys :
  rmap f l = Ok ys → ∀ x, x ∈ l → is_ok (f x) = true.
Proof.
  revert ys. induction l as [|x l IH]; intros ys H y Hy.
  - by apply elem_of_nil in Hy.
  - simpl in H. destruct (f x) as [b|] eqn:Hx; [|done]. simpl in H.
    destruct (rmap f l) as [bs|] eqn:Hl; [|done].
    apply elem_of_cons in Hy as [->|Hy]; [by rewrite Hx|by eapply IH].
Qed.

Lemma sorted_decorate (pts : list (string * Q * Q)) :
  (∀ p, p ∈ pts → is_ok (strptime p.1.1) = true) →
  sorted dt_leb (λ t, strptime t.1.1) pts =
  Ok (snd <$> sort_by dt_leb (decorate pts)).
Proof.
  intros Hok. unfold sorted.
  rewrite (rmap_ok _ (λ p, (tm p.1.1, p))); [done|].
  intros p Hp. by rewrite strptime_tm by auto.
Qed.

Lemma sorted_inv (pts sl : list (string * Q * Q)) :
  sorted dt_leb (λ t, strptime t.1.1) pts = Ok sl →
  (∀ p, p ∈ pts → is_ok (strptime p.1.1) = true) ∧
  sl = snd <$> sort_by dt_leb (decorate pts).
Proof.
  intros Hsl.
  assert (Hok : ∀ p, p ∈ pts → is_ok (strptime p.1.1) = true).
  { intros p Hp. revert Hsl. unfold sorted.
    destruct (rmap _ pts) as [dl|] eqn:Hr; [|done]. intros _.
    eapply rmap_ok_inv in Hr; [|exact Hp].
    by destruct (strptime p.1.1). }
  split; [done|]. rewrite sorted_decorate in Hsl by done. congruence.
Qed.

Lemma decorated_sorted pts :
  Forall (λ d, d.1 = tm d.2.1.1) (sort_by dt_leb (decorate pts)).
Proof.
  rewrite (sort_by_Permutation dt_leb (decorate pts)).
  unfold decorate. apply Forall_fmap, Forall_forall. done.
Qed.

Lemma keys_of_sorted pts :
  tm <$> (snd <$> sort_by dt_leb (decorate pts)).*1.*1 =
  (sort_by dt_leb (decorate pts)).*1.
Proof.
  pose proof (decorated_sorted pts) as H.
  induction H as [|d l Hd _ IH]; [done|].
  rewrite !fmap_cons. by rewrite IH, Hd.
Qed.

Lemma dt_leb_total a b : dt_leb a b = true ∨ dt_leb b a = true.
Proof. apply dt_le_total. Qed.

Lemma keys_Sorted pts : Sorted dt_le (sort_by dt_leb (decorate pts)).*1.
Proof.
  apply (Sorted_fmap fst (key_le dt_leb) dt_le); [done|].
  apply sort_by_Sorted, dt_leb_total.
Qed.

#[local] Instance key_le_trans {A} : Transitive (@key_le A datetime dt_leb).
Proof. intros x y z. unfold key_le. apply dt_le_trans. Qed.

Lemma sorted_measurements (pts : list (string * Q * Q)) :
  snd <$> sort_by dt_leb (decorate pts) ≡ₚ pts.
Proof.
  rewrite (sort_by_Permutation dt_leb (decorate pts)).
  unfold decorate. rewrite <- list_fmap_compose. simpl.
  by rewrite list_fmap_id.
Qed.

(** The timestamps of the sorted measurements are the sorted keys. *)
Lemma sorted_times (pts : list (string * Q * Q)) :
  (∀ p, p ∈ pts → is_ok (strptime p.1.1) = true) →
  rmap strptime (snd <$> sort_by dt_leb (decorate pts)).*1.*1 =
  Ok (sort_by dt_leb (decorate pts)).*1.
Proof.
  intros Hok. rewrite <- keys_of_sorted. apply rmap_ok.
  intros a Ha. apply strptime_tm.
  apply list_elem_of_fmap in Ha as ([a' f] & -> & Ha).
  apply list_elem_of_fmap in Ha as (p & Hp & Ha).
  rewrite sorted_measurements in Ha. apply Hok in Ha. by rewrite <- Hp in Ha.
Qed.

Lemma decorate_keys pts : (decorate pts).*1 = tm <$> pts.*1.*1.
Proof. unfold decorate. by rewrite <- !list_fmap_compose. Qed.

(** The sorted keys depend on the labels only, not on their order. *)
Lemma sorted_times_Permutation (pts pts' : list (string * Q * Q)) :
  pts'.*1.*1 ≡ₚ pts.*1.*1 →
  (sort_by dt_leb (decorate pts')).*1 = (sort_by dt_leb (decorate pts)).*1.
Proof.
  intros Hperm.
  apply (Sorted_unique dt_le); try apply keys_Sorted.
  rewrite (sort_by_Permutation dt_leb (decorate pts')).
  rewrite (sort_by_Permutation dt_leb (decorate pts)).
  by rewrite !decorate_keys, Hperm.
Qed.

Lemma NoDup_fmap_eq {A B} (f : A → B) (l : list A) x y :
  NoDup (f <$> l) → x ∈ l → y ∈ l → f x = f y → x = y.
Proof.
  induction l as [|z l IH]; simpl; intros Hnd Hx Hy E.
  - by apply elem_of_nil in Hx.
  - apply NoDup_cons in Hnd as [Hz Hnd].
    apply elem_of_cons in Hx as [->|Hx]; apply elem_of_cons in Hy as [->|Hy];
      auto.
    + exfalso. apply Hz. rewrite E. by apply list_elem_of_fmap_2.
    + exfalso. apply Hz. rewrite <- E. by apply list_elem_of_fmap_2.
Qed.

(** Without ties the sorted measurements do not depend on the order of the
    columns either. *)
Lemma sort_by_Permutation_NoDup (pts pts' : list (string * Q * Q)) :
  pts' ≡ₚ pts →
  NoDup (sort_by dt_leb (decorate pts)).*1 →
  sort_by dt_leb (decorate pts') = sort_by dt_leb (decorate pts).
Proof.
  intros Hperm Hnd.
  apply (Sorted_unique_strong (key_le dt_leb)).
  - intros d1 d2 Hd1 Hd2 H12 H21.
    rewrite (sort_by_Permutation dt_leb (decorate pts')) in Hd1.
    rewrite (sort_by_Permutation dt_leb (decorate pts)) in Hd2.
    assert (d1 ∈ decorate pts) as Hd1'.
    { unfold decorate in *. by rewrite <- Hperm. }
    rewrite (sort_by_Permutation dt_leb (decorate pts)) in Hnd.
    eapply (NoDup_fmap_eq fst); eauto.
    by apply (anti_symm dt_le).
  - apply sort_by_Sorted, dt_leb_total.
  - apply sort_by_Sorted, dt_leb_total.
  - rewrite (sort_by_Permutation dt_leb (decorate pts')).
    rewrite (sort_by_Permutation dt_leb (decorate pts)).
    unfold decorate. by rewrite Hperm.
Qed.

Lemma rmap_time_of l : rmap time_of (XLabel <$> l) = rmap strptime l.
Proof.
  induction l as [|a l IH]; [done|].
  change (rmap time_of (XLabel <$> a :: l))
    with (rbind (strptime a)
            (λ y, rbind (rmap time_of (XLabel <$> l)) (λ ys, Ok (y :: ys)))).
  by rewrite IH.
Qed.

Lemma plotted_lc_of u s (sl : list (string * Q * Q)) :
  plotted (lc_of u s sl) = (λ p, (XLabel p.1.1, p.1.2, p.2)) <$> sl.
Proof.
  unfold plotted, lc_of. cbn [lc_x lc_y lc_yerr].
  induction sl as [|[[a y] e] sl IH]; [done|].
  rewrite !fmap_cons. simpl. by rewrite IH.
Qed.

Lemma unzip3_ok {A B C} (l : list (A * B * C)) :
  l ≠ [] → unzip3 l = Ok (l.*1.*1, l.*1.*2, l.*2).
Proof. by destruct l. Qed.

(** [draw] on a row with cells in each of the three column families. *)
Lemma draw_eq stab row :
  epoch_cells row ≠ [] → peak_flux_cells row ≠ [] →
  err_peak_flux_cells row ≠ [] →
  Scripts.draw stab row =
  rbind (rmap strptime (epoch_cells row)) (λ _,
  rbind (sorted dt_leb (λ t, strptime t.1.1) (measurements row)) (λ sorted_list,
  rbind (unzip3 sorted_list) (λ '(sorted_epoch, sorted_flux, sorted_err_flux),
  let srow := filter (λ s, st_uuid s = uuid row) stab in
  rbind (first_of (st_m <$> srow)) (λ m,
  rbind (first_of (st_md <$> srow)) (λ md,
  rbind (first_of (st_chisq_peak_flux <$> srow)) (λ chisq,
  Ok (LightCurve {| lc_x := XLabel <$> sorted_epoch;
                    lc_y := sorted_flux;
                    lc_yerr := sorted_err_flux;
                    lc_label := (m, md, chisq);
                    lc_xlabel := Some "Epoch";
                    lc_title := uuid row |}))))))).
Proof.
  intros He Hf Hr. unfold Scripts.draw, measurements.
  by rewrite !row_cells_ok.
Qed.

Lemma draw_needs_cells stab row fig :
  Scripts.draw stab row = Ok fig →
  epoch_cells row ≠ [] ∧ peak_flux_cells row ≠ [] ∧
  err_peak_flux_cells row ≠ [].
Proof.
  unfold Scripts.draw.
  destruct (epoch_cells row) as [|a0 epochs]; [done|]. cbn [row_cells rbind].
  destruct (rmap strptime _) as [ts|]; [|done]. cbn [rbind].
  destruct (peak_flux_cells row) as [|y0 fluxes]; [done|].
  by destruct (err_peak_flux_cells row).
Qed.

(** What [draw] returns when it returns. *)
Lemma draw_ok_inv stab row fig :
  Scripts.draw stab row = Ok fig →
  ∃ s sl,
    sorted dt_leb (λ t, strptime t.1.1) (measurements row) = Ok sl ∧
    fig = LightCurve (lc_of (uuid row) s sl).
Proof.
  intros Hdraw.
  destruct (draw_needs_cells _ _ _ Hdraw) as (He & Hf & Hr).
  revert Hdraw. rewrite draw_eq by done. cbv zeta.
  destruct (rmap strptime _) as [ts|]; [|done]. simpl.
  destruct (sorted _ _ _) as [sl|]; [|done]. simpl.
  destruct (decide (sl = [])) as [->|Hne]; [done|].
  rewrite unzip3_ok by done. cbn [rbind].
  destruct (filter _ stab) as [|s srow]; [done|]. simpl.
  intros [= <-]. by exists s, sl.
Qed.

Lemma row_of_zip row :
  length (epoch_cells row) = length (peak_flux_cells row) →
  length (peak_flux_cells row) = length (err_peak_flux_cells row) →
  row_of (uuid row) (measurements row) = row.
Proof.
  intros H1 H2. destruct row as [u e f r]. unfold row_of, measurements.
  simpl in *. f_equal.
  - rewrite fst_zip, fst_zip; [done|lia|rewrite length_zip; lia].
  - rewrite fst_zip, snd_zip; [done|lia|rewrite length_zip; lia].
  - rewrite snd_zip; [done|rewrite length_zip; lia].
Qed.

(** C4.  When the light curve of a row is drawn, the plotted points are the
    measurements (label, flux, error) of the row, in ascending order of the
    timestamps [strptime] reads from their labels.  The sequence of
    timestamps is that of every row with the same labels in another column
    order; where the measurements are the same up to their order and no two
    share a timestamp, the sequence of plotted points is the same too. *)
Theorem epochs_sorted_by_time stab row lc :
  Scripts.draw stab row = Ok (LightCurve lc) →
  plotted lc ≡ₚ (λ p, (XLabel p.1.1, p.1.2, p.2)) <$> measurements row ∧
  ∃ ts,
    rmap time_of (lc_x lc) = Ok ts ∧
    Sorted dt_le ts ∧
    ∀ stab' row' lc',
      Scripts.draw stab' row' = Ok (LightCurve lc') →
      ((measurements row').*1.*1 ≡ₚ (measurements row).*1.*1 →
       rmap time_of (lc_x lc') = Ok ts) ∧
      (measurements row' ≡ₚ measurements row → NoDup ts →
       plotted lc' = plotted lc).
Proof.
  intros Hdraw.
  apply draw_ok_inv in Hdraw as (s & sl & Hsl & [= ->]).
  apply sorted_inv in Hsl as [Hok ->].
  split; [by rewrite plotted_lc_of, sorted_measurements|].
  exists (sort_by dt_leb (decorate (measurements row))).*1.
  split; [unfold lc_of; cbn [lc_x]; by rewrite rmap_time_of, sorted_times|].
  split; [apply keys_Sorted|].
  intros stab' row' lc' Hdraw'.
  apply draw_ok_inv in Hdraw' as (s' & sl' & Hsl' & [= ->]).
  apply sorted_inv in Hsl' as [Hok' ->].
  split.
  - intros Hperm. unfold lc_of; cbn [lc_x].
    rewrite rmap_time_of, sorted_times by done.
    by rewrite (sorted_times_Permutation (measurements row) (measurements row')).
  - intros Hperm Hnd. rewrite !plotted_lc_of.
    by rewrite (sort_by_Permutation_NoDup (measurements row) (measurements row')).
Qed.

(** ** Slices and the workers' shares *)

Lemma slice_indices_spec (start stride len j : nat) :
  (1 ≤ stride)%nat →
  j ∈ slice_indices start stride len ↔
  (j < len)%nat ∧ ∃ k : nat, j = (start + k * stride)%nat.
Proof.
  intros Hs. unfold slice_indices, slice_len.
  rewrite list_elem_of_fmap. setoid_rewrite elem_of_seq.
  destruct (Nat.ltb_spec start len) as [Hlt|Hge].
  - split.
    + intros (k & -> & _ & Hk). split; [|eauto].
      assert (k ≤ (len - start - 1) / stride)%nat as Hk' by lia.
      pose proof (Nat.Div0.mul_div_le (len - start - 1) stride). nia.
    + intros (Hj & k & ->). exists k. split; [done|]. split; [lia|].
      assert (k ≤ (len - start - 1) / stride)%nat; [|lia].
      apply Nat.div_le_lower_bound; [lia|nia].
  - split.
    + intros (k & _ & _ & ?). lia.
    + intros (Hj & k & ->). lia.
Qed.

Lemma slice_indices_NoDup (start stride len : nat) :
  (1 ≤ stride)%nat → NoDup (slice_indices start stride len).
Proof.
  intros Hs. unfold slice_indices.
  apply NoDup_fmap_2_strong; [|apply NoDup_seq].
  intros k1 k2 _ _ ?. nia.
Qed.

Lemma omap_lookup_seq_app {A} (pre l : list A) :
  omap (λ j, (pre ++ l) !! j) (seq (length pre) (length l)) = l.
Proof.
  revert pre. induction l as [|x l IH]; intros pre; [done|].
  simpl. rewrite list_lookup_middle by done. f_equal.
  specialize (IH (pre ++ [x])).
  rewrite length_app, Nat.add_1_r, <- app_assoc in IH. done.
Qed.

Lemma omap_lookup_seq {A} (l : list A) :
  omap (λ j, l !! j) (seq 0 (length l)) = l.
Proof. apply (omap_lookup_seq_app [] l). Qed.

Lemma omap_concat {A B} (f : A → option B) (ls : list (list A)) :
  omap f (concat ls) = concat ((omap f : list A → list B) <$> ls).
Proof.
  induction ls as [|l ls IH]; [done|]. simpl. by rewrite omap_app, IH.
Qed.

Lemma elem_of_concat {A} (x : A) (ls : list (list A)) :
  x ∈ concat ls ↔ ∃ l, l ∈ ls ∧ x ∈ l.
Proof.
  induction ls as [|l ls IH]; simpl.
  - split; [by intros ?%elem_of_nil | by intros (? & ?%elem_of_nil & _)].
  - rewrite elem_of_app, IH. split.
    + intros [Hx|(l' & Hl' & Hx)]; [exists l|exists l'];
        (split; [|done]); [left|by right].
    + intros (l' & [->|Hl']%elem_of_cons & Hx); [by left|right; eauto].
Qed.

Lemma NoDup_concat_disjoint {A} (ls : list (list A)) :
  Forall NoDup ls →
  (∀ i1 i2 l1 l2 x, ls !! i1 = Some l1 → ls !! i2 = Some l2 →
     x ∈ l1 → x ∈ l2 → i1 = i2) →
  NoDup (concat ls).
Proof.
  induction ls as [|l ls IH]; intros Hnd Hdis; simpl; [constructor|].
  inversion_clear Hnd as [|?? Hl Hls].
  apply NoDup_app. split; [done|]. split.
  - intros x Hx Hin. apply elem_of_concat in Hin as (l' & Hl' & Hx').
    apply list_elem_of_lookup in Hl' as [i Hi].
    specialize (Hdis 0%nat (S i) l l' x eq_refl Hi Hx Hx'). lia.
  - apply IH; [done|]. intros i1 i2 l1 l2 x H1 H2 Hx1 Hx2.
    specialize (Hdis (S i1) (S i2) l1 l2 x H1 H2 Hx1 Hx2). lia.
Qed.

(** C1.  For [N >= 1] the scheduler submits the workers [i = 0 .. N-1]
    with [start = i] and [stride = N].  Every row index below the length of
    the table lies in the slice of some worker, no index lies in the slices
    of two workers, and the slices [rows[i::N]] put together are a
    rearrangement of the table. *)
Theorem start_stride_partition {A} (N : nat) (rows : list A) :
  (1 ≤ N)%nat →
  (∀ ft st dir w,
     Scripts.plot_lc_table_parallel ft st dir (Z.of_nat N) w =
     for_each (seq 0 N)
       (λ i, apply_async (Scripts.plot_lc_table ft st i N dir)) w) ∧
  (∀ j : nat,
     (j < length rows)%nat ↔
     ∃ i : nat, (i < N)%nat ∧ j ∈ slice_indices i N (length rows)) ∧
  (∀ i1 i2 j : nat,
     (i1 < N)%nat → (i2 < N)%nat →
     j ∈ slice_indices i1 N (length rows) →
     j ∈ slice_indices i2 N (length rows) → i1 = i2) ∧
  ∃ parts : list (list A),
    Forall2 (λ i part, py_slice i N rows = Ok part) (seq 0 N) parts ∧
    concat parts ≡ₚ rows.
Proof.
  intros HN.
  assert (Hcover : ∀ j : nat, (j < length rows)%nat ↔
     ∃ i : nat, (i < N)%nat ∧ j ∈ slice_indices i N (length rows)).
  { intros j. split.
    - intros Hj. exists (j mod N)%nat. split; [apply Nat.mod_upper_bound; lia|].
      apply slice_indices_spec; [done|]. split; [done|].
      exists (j / N)%nat. pose proof (Nat.div_mod_eq j N). lia.
    - intros (i & _ & Hi). apply slice_indices_spec in Hi; [|done]. tauto. }
  assert (Hdisj : ∀ i1 i2 j : nat,
     (i1 < N)%nat → (i2 < N)%nat →
     j ∈ slice_indices i1 N (length rows) →
     j ∈ slice_indices i2 N (length rows) → i1 = i2).
  { intros i1 i2 j H1 H2 Hj1 Hj2.
    apply slice_indices_spec in Hj1 as (_ & k1 & E1); [|done].
    apply slice_indices_spec in Hj2 as (_ & k2 & E2); [|done].
    assert (j mod N = i1)%nat as <-.
    { rewrite E1, Nat.Div0.mod_add. by apply Nat.mod_small. }
    rewrite E2, Nat.Div0.mod_add. by apply Nat.mod_small. }
  split.
  { intros ft st dir w. unfold Scripts.plot_lc_table_parallel, mp_Pool.
    destruct (decide (Z.of_nat N < 1)); [lia|].
    rewrite bind_ret_l. by rewrite Nat2Z.id. }
  split; [done|]. split; [done|].
  exists ((λ i, omap (λ j, rows !! j) (slice_indices i N (length rows)))
            <$> seq 0 N).
  split.
  - apply Forall2_fmap_r, Forall2_same_length_lookup. split; [done|].
    intros i x y Hx Hy. rewrite Hx in Hy. injection Hy as <-.
    unfold py_slice. destruct (Nat.eqb_spec N 0); [lia|done].
  - replace ((λ i, omap (λ j, rows !! j) (slice_indices i N (length rows)))
               <$> seq 0 N)
      with ((omap (λ j, rows !! j) : list nat → list A)
              <$> ((λ i, slice_indices i N (length rows)) <$> seq 0 N))
      by (by rewrite <- list_fmap_compose).
    rewrite <- omap_concat.
    transitivity (omap (λ j, rows !! j) (seq 0 (length rows)));
      [|by rewrite omap_lookup_seq].
    apply omap_Permutation, NoDup_Permutation.
    + apply NoDup_concat_disjoint.
      * apply Forall_fmap, Forall_forall. intros i _. by apply slice_indices_NoDup.
      * intros i1 i2 l1 l2 j H1 H2 Hj1 Hj2.
        apply list_lookup_fmap_Some in H1 as (a1 & -> & [? ?]%lookup_seq).
        apply list_lookup_fmap_Some in H2 as (a2 & -> & [? ?]%lookup_seq).
        simpl in *. subst. eapply Hdisj; eauto.
    + apply NoDup_seq.
    + intros j. rewrite elem_of_concat, elem_of_seq.
      setoid_rewrite list_elem_of_fmap. setoid_rewrite elem_of_seq.
      split.
      * intros (l & (i & -> & _ & Hi) & Hj). split; [lia|].
        apply Hcover. eauto.
      * intros [_ Hj]. apply Hcover in Hj as (i & Hi & Hj).
        exists (slice_indices i N (length rows)). split; [|done].
        exists i. split; [done|lia].
Qed.

(** ** Rows without statistics *)

Lemma draw_no_stats stab row :
  filter (λ s, st_uuid s = uuid row) stab = [] →
  (∀ a, a ∈ epoch_cells row → is_ok (strptime a) = true) →
  Scripts.draw stab row = Raise IndexError.
Proof.
  intros Hno Hok. unfold Scripts.draw.
  destruct (decide (epoch_cells row = [])) as [->|He]; [done|].
  rewrite (row_cells_ok (epoch_cells row)) by done. cbn [rbind].
  rewrite (rmap_ok strptime tm) by (intros a Ha; by apply strptime_tm, Hok).
  cbn [rbind].
  destruct (decide (peak_flux_cells row = [])) as [->|Hf]; [done|].
  rewrite (row_cells_ok (peak_flux_cells row)) by done. cbn [rbind].
  destruct (decide (err_peak_flux_cells row = [])) as [->|Hr]; [done|].
  rewrite (row_cells_ok (err_peak_flux_cells row)) by done. cbn [rbind].
  fold (measurements row). rewrite sorted_decorate.
  2:{ intros [[a y] e] Hp%elem_of_zip_l%elem_of_zip_l. by apply Hok. }
  cbn [rbind]. rewrite unzip3_ok.
  2:{ intros E.
      assert (measurements row = []) as Hm.
      { apply Permutation_nil_r.
        by rewrite <- (sorted_measurements (measurements row)), E. }
      revert Hm. unfold measurements.
      destruct (epoch_cells row), (peak_flux_cells row),
        (err_peak_flux_cells row); done. }
  simpl. by rewrite Hno.
Qed.

Lemma draw_with_stats stab row :
  filter (λ s, st_uuid s = uuid row) stab ≠ [] →
  epoch_cells row ≠ [] → peak_flux_cells row ≠ [] →
  err_peak_flux_cells row ≠ [] →
  Scripts.draw stab row ≠ Raise IndexError.
Proof.
  intros Hne He Hf Hr Hd.
  apply draw_raise in Hd as [[why ?]|[_ [?|[?|[?|?]]]]]; done.
Qed.

Lemma for_each_raise {A} (l : list A) body w e :
  (for_each l body w).2 = Raise e →
  ∃ x w0, x ∈ l ∧ (body x w0).2 = Raise e.
Proof.
  revert w. induction l as [|x l IH]; intros w; [done|].
  rewrite for_each_cons.
  destruct (body x w) as [w' [[]|e']] eqn:Hb.
  - intros (y & w0 & Hy & Hr)%IH. exists y, w0. split; [by right|done].
  - simpl. intros [= ->]. exists x, w. split; [by left|]. by rewrite Hb.
Qed.

Lemma py_slice_subset {A} start stride (l rows : list A) x :
  py_slice start stride l = Ok rows → x ∈ rows → x ∈ l.
Proof.
  unfold py_slice. destruct (stride =? 0)%nat; [done|].
  intros [= <-] (j & _ & Hj)%list_elem_of_omap.
  by eapply list_elem_of_lookup_2.
Qed.

(** C9, amended.  A row whose uuid has no row in the statistics table ends
    the worker with an [IndexError] when its output path does not exist yet
    and all its epoch labels match the format.  When the statistics table
    has a row for the uuid (one or more), the lookups [srow['m'][0]],
    [srow['md'][0]] and [srow['chisq_peak_flux'][0]] succeed, with the
    values of the first such row; a row with columns in each of the three
    families then never raises [IndexError], and a worker on a flux table of
    such rows never ends with it. *)
Theorem missing_stats_row_lookup_failure stab dir row w :
  (filter (λ s, st_uuid s = uuid row) stab = [] →
   files w !! Scripts.fname_of dir row = None →
   (∀ a, a ∈ epoch_cells row → is_ok (strptime a) = true) →
   Scripts.plot_row stab dir row w =
   (emit [Scripts.fname_of dir row] w, Raise IndexError)) ∧
  (filter (λ s, st_uuid s = uuid row) stab ≠ [] →
   ∃ s0, s0 ∈ stab ∧ st_uuid s0 = uuid row ∧
     first_of (st_m <$> filter (λ s, st_uuid s = uuid row) stab)
       = Ok (st_m s0) ∧
     first_of (st_md <$> filter (λ s, st_uuid s = uuid row) stab)
       = Ok (st_md s0) ∧
     first_of (st_chisq_peak_flux <$> filter (λ s, st_uuid s = uuid row) stab)
       = Ok (st_chisq_peak_flux s0)) ∧
  (filter (λ s, st_uuid s = uuid row) stab ≠ [] →
   has_columns row →
   (Scripts.plot_row stab dir row w).2 ≠ Raise IndexError) ∧
  (∀ f s ftab start stride,
     files w !! f = Some (FluxTable ftab) →
     files w !! s = Some (StatsTable stab) →
     (∀ r, r ∈ ftab →
        filter (λ s, st_uuid s = uuid r) stab ≠ [] ∧ has_columns r) →
     (Scripts.plot_lc_table (PyStr f) (PyStr s) start stride dir w).2
       ≠ Raise IndexError).
Proof.
  assert (Hrow : ∀ r w0,
    filter (λ s, st_uuid s = uuid r) stab ≠ [] → has_columns r →
    (Scripts.plot_row stab dir r w0).2 ≠ Raise IndexError).
  { intros r w0 Hne (He & Hf & Hr). rewrite plot_row_eq.
    destruct (bool_decide _); [done|].
    destruct (Scripts.draw stab r) as [fig|e] eqn:Hd; [done|].
    simpl. intros [= ->]. by apply (draw_with_stats stab r). }
  split; [|split; [|split]].
  - intros Hno Hnew Hok. rewrite plot_row_eq.
    rewrite bool_decide_eq_false_2 by (rewrite Hnew; by intros [? ?]).
    by rewrite draw_no_stats.
  - intros Hne.
    destruct (filter (λ s, st_uuid s = uuid row) stab) as [|s0 srow] eqn:E;
      [done|].
    exists s0. assert (s0 ∈ filter (λ s, st_uuid s = uuid row) stab) as Hin
      by (rewrite E; left).
    apply list_elem_of_filter in Hin as [Hu Hin]. done.
  - apply Hrow.
  - intros f s ftab start stride Hf Hs Hall Hr.
    destruct (py_slice start stride ftab) as [rows|e] eqn:Hsl.
    + rewrite (plot_lc_table_run f s ftab stab rows) in Hr by done.
      apply for_each_raise in Hr as (r & w0 & Hin & Hr).
      revert Hr. apply Hrow; apply Hall; by eapply py_slice_subset.
    + revert Hr. unfold Scripts.plot_lc_table. unfold_M.
      rewrite Hf, Hs, Hsl. simpl.
      unfold py_slice in Hsl. destruct (stride =? 0)%nat; congruence.
Qed.

(** ** Output paths *)

Lemma string_length_app a b :
  String.length (a +:+ b) = (String.length a + String.length b)%nat.
Proof.
  induction a as [|c a IH]; [done|].
  change (String c a +:+ b) with (String c (a +:+ b)). simpl. by rewrite IH.
Qed.

Lemma string_app_inv_tail a b s : a +:+ s = b +:+ s → a = b.
Proof.
  revert b. induction a as [|c a IH]; intros [|c' b] H; [done| | |].
  - apply (f_equal String.length) in H.
    rewrite !string_length_app in H. simpl in H. lia.
  - apply (f_equal String.length) in H.
    rewrite !string_length_app in H. simpl in H. lia.
  - change (String c (a +:+ s) = String c' (b +:+ s)) in H.
    injection H as -> H. f_equal. by apply IH.
Qed.

Lemma fname_of_inj dir row row' :
  Scripts.fname_of dir row = Scripts.fname_of dir row' → uuid row = uuid row'.
Proof.
  unfold Scripts.fname_of. intros H.
  apply (inj (String.append dir)) in H.
  apply (inj (String.append "/")) in H.
  by apply string_app_inv_tail in H.
Qed.





(** ** The main blocks *)

Lemma getattr_some ns k v : ns !! k = Some v → getattr ns k = mret v.
Proof. unfold getattr. by intros ->. Qed.

Lemma getattr_none ns k : ns !! k = None → getattr ns k = raise (AttributeError k).
Proof. unfold getattr. by intros ->. Qed.

Lemma bind_ext {A B} (c : M A) (k1 k2 : A → M B) w :
  (∀ a w', k1 a w' = k2 a w') → (c ≫= k1) w = (c ≫= k2) w.
Proof.
  intros H. unfold mbind, M_bind. destruct (c w) as [w' [a|e]]; auto.
Qed.

Lemma bind_cpu_count {A B} (f : Z → A) (k : A → M B) w :
  ((n ← mp_cpu_count; mret (f n)) ≫= k) w = k (f (cpu_count w)) w.
Proof. reflexivity. Qed.

Ltac attr k v :=
  rewrite (getattr_some _ k v) by (vm_compute; reflexivity);
  rewrite bind_ret_l; cbv beta.

Lemma scripts_main_eq c w :
  Scripts.main c w =
  let ftable := opt_str (Scripts.arg_ftable c) in
  let stable := opt_str (Scripts.arg_stable c) in
  if truthy ftable || truthy stable then
    ((if negb (truthy ftable && truthy stable)
      then print Scripts.error_message else mret ());;
     Scripts.plot_summary_table stable (opt_str (Scripts.arg_plot c));;
     if Scripts.arg_all c then
       Scripts.plot_lc_table_parallel ftable stable
         (default "plots" (Scripts.arg_lc_dir c))
         (default (cpu_count w) (Scripts.arg_cores c))
     else mret ()) w
  else (print_help;; sys_exit) w.
Proof.
  unfold Scripts.main. cbv zeta.
  attr "cores" (opt_int (Scripts.arg_cores c)).
  destruct (Scripts.arg_cores c) as [n|] eqn:Hcores; simpl opt_int.
  - destruct (decide (PyInt n = PyNone)); [done|].
    rewrite bind_ret_l; cbv beta.
    attr "ftable" (opt_str (Scripts.arg_ftable c)).
    attr "stable" (opt_str (Scripts.arg_stable c)).
    destruct (truthy _ || truthy _); [|done].
    apply bind_ext. intros _ w1.
    attr "plotfile" (opt_str (Scripts.arg_plot c)).
    apply bind_ext. intros _ w2.
    attr "all" (PyBool (Scripts.arg_all c)).
    destruct (Scripts.arg_all c); cbn [truthy]; [|done].
    attr "light_curve_dir" (PyStr (default "plots" (Scripts.arg_lc_dir c))).
    attr "cores" (opt_int (Scripts.arg_cores c)).
    rewrite Hcores. cbn [opt_int]. unfold as_int. by rewrite bind_ret_l.
  - destruct (decide (PyNone = PyNone)); [|done].
    rewrite bind_cpu_count. cbv beta.
    attr "ftable" (opt_str (Scripts.arg_ftable c)).
    attr "stable" (opt_str (Scripts.arg_stable c)).
    destruct (truthy _ || truthy _); [|done].
    apply bind_ext. intros _ w1.
    attr "plotfile" (opt_str (Scripts.arg_plot c)).
    apply bind_ext. intros _ w2.
    attr "all" (PyBool (Scripts.arg_all c)).
    destruct (Scripts.arg_all c); cbn [truthy]; [|done].
    attr "light_curve_dir" (PyStr (default "plots" (Scripts.arg_lc_dir c))).
    attr "cores" (PyInt (cpu_count w)).
    unfold as_int. by rewrite bind_ret_l.
Qed.

Lemma bind_raise {A B} (e : exn) (k : A → M B) w :
  (raise e ≫= k) w = (w, Raise e).
Proof. reflexivity. Qed.

Lemma truthy_str s : s ≠ "" → truthy (PyStr s) = true.
Proof. intros H. simpl. by apply negb_true_iff, String.eqb_neq. Qed.

(** C7.  When the main block reaches the scheduler, it calls it with the
    host's [cpu_count] for [nprocs] if [--cores] was not given, and with the
    given number otherwise. *)
Theorem worker_count_default c w w1 :
  truthy (opt_str (Scripts.arg_ftable c))
    || truthy (opt_str (Scripts.arg_stable c)) = true →
  Scripts.arg_all c = true →
  ((if negb (truthy (opt_str (Scripts.arg_ftable c))
             && truthy (opt_str (Scripts.arg_stable c)))
    then print Scripts.error_message else mret ());;
   Scripts.plot_summary_table (opt_str (Scripts.arg_stable c))
     (opt_str (Scripts.arg_plot c))) w = (w1, Ok ()) →
  Scripts.main c w =
  Scripts.plot_lc_table_parallel
    (opt_str (Scripts.arg_ftable c)) (opt_str (Scripts.arg_stable c))
    (default "plots" (Scripts.arg_lc_dir c))
    (match Scripts.arg_cores c with
     | None => cpu_count w
     | Some n => n
     end) w1.
Proof.
  intros Htables Hall Hpre. rewrite scripts_main_eq. cbv zeta.
  rewrite Htables, Hall.
  revert Hpre. unfold mbind, M_bind.
  destruct (negb _); simpl;
    (destruct (Scripts.plot_summary_table _ _ _) as [w'' [[]|e]]; [|done]);
    intros [= ->]; by destruct (Scripts.arg_cores c).
Qed.

Lemma db_main_eq dateutil_parse c w :
  truthy (opt_str (Db.arg_dbname c)) = false →
  Db.main dateutil_parse c w =
  let ftable := opt_str (Db.arg_ftable c) in
  let stable := opt_str (Db.arg_stable c) in
  if truthy ftable || truthy stable then
    ((if negb (truthy ftable && truthy stable)
      then print Scripts.error_message else mret ());;
     Db.plot_summary_table stable (opt_str (Db.arg_plot c));;
     if Db.arg_all c then Db.plot_lc_table ftable stable else mret ()) w
  else (print_help;; sys_exit) w.
Proof.
  intros Hdb. unfold Db.main. cbv zeta.
  attr "db" (opt_str (Db.arg_dbname c)). rewrite Hdb.
  attr "ftable" (opt_str (Db.arg_ftable c)).
  attr "stable" (opt_str (Db.arg_stable c)).
  destruct (truthy _ || truthy _); [|done].
  apply bind_ext. intros _ w1.
  attr "plotfile" (opt_str (Db.arg_plot c)).
  apply bind_ext. intros _ w2.
  attr "all" (PyBool (Db.arg_all c)).
  by destruct (Db.arg_all c).
Qed.

(** C8, amended.  When one of [--ftable] and [--stable] is given with a
    non-empty value and the other is missing or empty, the main block prints
    the error message and goes on: it calls the summary renderer on the
    value of [--stable] and, once that call has returned, the scheduler if
    [--all] is set (the older script: the sequential [plot_lc_table]).  With
    [--stable] missing the summary renderer fails to read its table, and the
    program ends with that failure. *)
Theorem one_table_argument_continues c w :
  xorb (truthy (opt_str (Scripts.arg_ftable c)))
       (truthy (opt_str (Scripts.arg_stable c))) = true →
  Scripts.main c w =
    (print Scripts.error_message;;
     Scripts.plot_summary_table (opt_str (Scripts.arg_stable c))
       (opt_str (Scripts.arg_plot c));;
     if Scripts.arg_all c then
       Scripts.plot_lc_table_parallel
         (opt_str (Scripts.arg_ftable c)) (opt_str (Scripts.arg_stable c))
         (default "plots" (Scripts.arg_lc_dir c))
         (default (cpu_count w) (Scripts.arg_cores c))
     else mret ()) w ∧
  (Scripts.arg_stable c = None →
   Scripts.main c w =
   (emit [Scripts.error_message] w, Raise (LibraryError "Table.read"))) ∧
  (∀ dateutil_parse c',
     truthy (opt_str (Db.arg_dbname c')) = false →
     Db.arg_ftable c' = Scripts.arg_ftable c →
     Db.arg_stable c' = Scripts.arg_stable c →
     Db.main dateutil_parse c' w =
       (print Scripts.error_message;;
        Db.plot_summary_table (opt_str (Db.arg_stable c'))
          (opt_str (Db.arg_plot c'));;
        if Db.arg_all c'
        then Db.plot_lc_table (opt_str (Db.arg_ftable c'))
               (opt_str (Db.arg_stable c'))
        else mret ()) w).
Proof.
  intros Hone.
  assert (Scripts.main c w =
    (print Scripts.error_message;;
     Scripts.plot_summary_table (opt_str (Scripts.arg_stable c))
       (opt_str (Scripts.arg_plot c));;
     if Scripts.arg_all c then
       Scripts.plot_lc_table_parallel
         (opt_str (Scripts.arg_ftable c)) (opt_str (Scripts.arg_stable c))
         (default "plots" (Scripts.arg_lc_dir c))
         (default (cpu_count w) (Scripts.arg_cores c))
     else mret ()) w) as Hmain.
  { rewrite scripts_main_eq. cbv zeta.
    by destruct (truthy (opt_str (Scripts.arg_ftable c))),
      (truthy (opt_str (Scripts.arg_stable c))). }
  split; [done|]. split.
  - intros Hst. rewrite Hmain, Hst. reflexivity.
  - intros dateutil_parse c' Hdb Hft Hst.
    rewrite db_main_eq by done. cbv zeta. rewrite Hft, Hst.
    by destruct (truthy (opt_str (Scripts.arg_ftable c))),
      (truthy (opt_str (Scripts.arg_stable c))).
Qed.

(** C10, amended.  When [--dbname] is given with a non-empty value, the
    main block of the older script ends with the [AttributeError] of
    [results.name] before anything is read, plotted or printed: the parser
    stores the argument under [db] and defines neither [name] nor
    [dates]. *)
Theorem dbname_attribute_error dateutil_parse c w s :
  Db.arg_dbname c = Some s → s ≠ "" →
  Db.main dateutil_parse c w = (w, Raise (AttributeError "name")) ∧
  Db.parse_args c !! "db" = Some (PyStr s) ∧
  Db.parse_args c !! "name" = None ∧
  Db.parse_args c !! "dates" = None.
Proof.
  intros Hdb Hs.
  assert (Db.parse_args c !! "db" = Some (opt_str (Db.arg_dbname c)))
    as Hlook by (vm_compute; reflexivity).
  rewrite Hdb in Hlook. cbn [opt_str] in Hlook.
  assert (Db.parse_args c !! "name" = None) as Hname
    by (vm_compute; reflexivity).
  assert (Db.parse_args c !! "dates" = None) as Hdates
    by (vm_compute; reflexivity).
  split; [|done].
  unfold Db.main. cbv zeta.
  rewrite (getattr_some _ "db" (PyStr s)) by done.
  rewrite bind_ret_l. cbv beta. rewrite truthy_str by done.
  rewrite (getattr_none _ "name") by done.
  apply bind_raise.
Qed.

(** ** The summary renderers *)


Lemma Qpositive_false x : Qpositive x = false ↔ (x <= 0)%Q.
Proof.
  unfold Qpositive, Qle. simpl. rewrite Z.ltb_ge. lia.
Qed.

Lemma np_log10_positive x : Qpositive x = true → np_log10 x = Log10 x.
Proof. unfold np_log10. by intros ->. Qed.

Lemma np_log10_finite x : finite (np_log10 x) = Qpositive x.
Proof.
  unfold np_log10. destruct (Qpositive x); [done|].
  by destruct (Qnum x =? 0)%Z.
Qed.


(** The markers [scatter] keeps are those of the rows both of whose
    logarithms are finite. *)
Lemma scatter_rows {A} (fx fy fc : A → Q) (l : list A) :
  scatter (fx <$> l) (np_log10 <$> (fy <$> l)) (np_log10 <$> (fc <$> l)) =
  (λ r, {| pt_x := fx r; pt_y := Log10 (fy r); pt_c := Log10 (fc r) |})
    <$> List.filter (λ r, Qpositive (fy r) && Qpositive (fc r)) l.
Proof.
  unfold scatter. induction l as [|r l IH]; [done|].
  rewrite !fmap_cons. cbn [zip zip_with List.filter pt_y pt_c fst snd].
  rewrite !np_log10_finite, IH.
  destruct (Qpositive (fy r)) eqn:Hy; [|done].
  destruct (Qpositive (fc r)) eqn:Hc; [|done].
  simpl. by rewrite !np_log10_positive.
Qed.



(** The figure the flat-table renderer saves. *)
Lemma plot_summary_table_eq f plotfile tab w :
  files w !! f = Some (StatsTable tab) →
  Scripts.plot_summary_table (PyStr f) plotfile w =
  savefig plotfile
    (Summary (table_marker <$> List.filter table_shown tab)) w.
Proof.
  intros Hf. unfold Scripts.plot_summary_table.
  unfold mbind, M_bind, Table_read_stats. rewrite Hf.
  by rewrite (scatter_rows st_md st_pval_peak_flux_ks st_mean_peak_flux).
Qed.




(** ** Instances *)

Lemma start_stride_partition_witness :
  ∃ parts : list (list flux_row),
    Forall2 (λ i part, py_slice i 3 [src_a; src_b; src_c; src_d] = Ok part)
      (seq 0 3) parts ∧
    concat parts ≡ₚ [src_a; src_b; src_c; src_d].
Proof.
  apply (start_stride_partition 3 [src_a; src_b; src_c; src_d]). lia.
Defined.



Lemma epochs_sorted_by_time_witness :
  plotted lc_a ≡ₚ
    (λ p, (XLabel p.1.1, p.1.2, p.2)) <$> measurements src_a ∧
  ∃ ts,
    rmap time_of (lc_x lc_a) = Ok ts ∧
    Sorted dt_le ts ∧
    ∀ stab' row' lc',
      Scripts.draw stab' row' = Ok (LightCurve lc') →
      ((measurements row').*1.*1 ≡ₚ (measurements src_a).*1.*1 →
       rmap time_of (lc_x lc') = Ok ts) ∧
      (measurements row' ≡ₚ measurements src_a → NoDup ts →
       plotted lc' = plotted lc_a).
Proof.
  apply (epochs_sorted_by_time [stats_of "a" (1 # 2)] src_a lc_a).
  vm_compute. reflexivity.
Defined.

Lemma parse_failure_aborts_worker_witness :
  Scripts.plot_lc_table (PyStr "flux.fits") (PyStr "stats.fits") 0 1 "plots"
    bad_label_world =
    (emit ["plots/b.png"]
       (for_each [src_a]
          (Scripts.plot_row
             [stats_of "a" (1 # 2); stats_of "b" (1 # 2); stats_of "c" (1 # 2)]
             "plots") bad_label_world).1,
     Raise (ValueError (TimeDataMismatch "02/01/2020 00:00"))) ∧
  apply_async
    (Scripts.plot_lc_table (PyStr "flux.fits") (PyStr "stats.fits") 0 1 "plots")
    bad_label_world =
    (emit ["plots/b.png"]
       (for_each [src_a]
          (Scripts.plot_row
             [stats_of "a" (1 # 2); stats_of "b" (1 # 2); stats_of "c" (1 # 2)]
             "plots") bad_label_world).1,
     Ok ()).
Proof.
  destruct (parse_failure_aborts_worker "flux.fits" "stats.fits"
    [src_a; src_b; src_c]
    [stats_of "a" (1 # 2); stats_of "b" (1 # 2); stats_of "c" (1 # 2)]
    0 1 "plots" bad_label_world [src_a] src_b [src_c]
    (for_each [src_a]
       (Scripts.plot_row
          [stats_of "a" (1 # 2); stats_of "b" (1 # 2); stats_of "c" (1 # 2)]
          "plots") bad_label_world).1)
    as ((a & Ha & Hbad & Hrun) & Hasync & _).
  - vm_compute. reflexivity.
  - vm_compute. reflexivity.
  - vm_compute. reflexivity.
  - vm_compute. reflexivity.
  - vm_compute. reflexivity.
  - exists "02/01/2020 00:00". split; [right; left|reflexivity].
  - split; [|exact Hasync].
    rewrite Hrun. do 4 f_equal.
    apply elem_of_cons in Ha as [->|Ha]; [done|].
    apply elem_of_cons in Ha as [->|Ha]; [done|].
    by apply elem_of_nil in Ha.
Defined.


Lemma worker_count_default_witness :
  Scripts.main (cli_both None) good_world =
  Scripts.plot_lc_table_parallel (PyStr "flux.fits") (PyStr "stats.fits")
    "plots" 2
    (Scripts.plot_summary_table (PyStr "stats.fits") (PyStr "summary.png")
       good_world).1 ∧
  Scripts.main (cli_both (Some 3)) good_world =
  Scripts.plot_lc_table_parallel (PyStr "flux.fits") (PyStr "stats.fits")
    "plots" 3
    (Scripts.plot_summary_table (PyStr "stats.fits") (PyStr "summary.png")
       good_world).1.
Proof.
  split.
  - apply (worker_count_default (cli_both None) good_world);
      [reflexivity|reflexivity|vm_compute; reflexivity].
  - apply (worker_count_default (cli_both (Some 3)) good_world);
      [reflexivity|reflexivity|vm_compute; reflexivity].
Defined.

Lemma one_table_argument_continues_witness :
  stdout (Scripts.main cli_only_stable good_world).1 =
    [Scripts.error_message] ∧
  (Scripts.main cli_only_stable good_world).2 = Ok () ∧
  is_Some (files (Scripts.main cli_only_stable good_world).1 !! "summary.png").
Proof.
  destruct (one_table_argument_continues cli_only_stable good_world)
    as [Hmain _]; [reflexivity|].
  rewrite Hmain. vm_compute.
  split; [reflexivity|]. split; [reflexivity|]. eexists. reflexivity.
Defined.

Lemma missing_stats_row_lookup_failure_witness :
  Scripts.plot_row [stats_of "a" (1 # 2)] "plots" src_c good_world =
    (emit ["plots/c.png"] good_world, Raise IndexError) ∧
  (Scripts.plot_row [stats_of "c" (1 # 2)] "plots" src_c good_world).2
    ≠ Raise IndexError.
Proof.
  split.
  - destruct (missing_stats_row_lookup_failure [stats_of "a" (1 # 2)] "plots"
                src_c good_world) as (H & _).
    apply H.
    + reflexivity.
    + vm_compute. reflexivity.
    + intros a Ha. apply elem_of_cons in Ha as [->|Ha]; [reflexivity|].
      by apply elem_of_nil in Ha.
  - destruct (missing_stats_row_lookup_failure [stats_of "c" (1 # 2)] "plots"
                src_c good_world) as (_ & _ & H & _).
    apply H; [discriminate|]. repeat split; discriminate.
Defined.

Lemma dbname_attribute_error_witness :
  Db.main iso_dates (cli_db "sources.db") good_world =
  (good_world, Raise (AttributeError "name")).
Proof.
  apply (dbname_attribute_error iso_dates (cli_db "sources.db") good_world
           "sources.db"); [reflexivity|discriminate].
Defined.

(** ** Counterexamples to the claims as worded *)


(** C5 as worded fails: the source [b] has an epoch label that does not
    match the format, yet with [plots/b.png] in place its row is skipped,
    nothing is raised and the worker goes on to render [c]. *)
Lemma bad_label_skipped_when_output_exists :
  "02/01/2020 00:00" ∈ epoch_cells src_b ∧
  is_ok (strptime "02/01/2020 00:00") = false ∧
  Scripts.plot_row
    [stats_of "a" (1 # 2); stats_of "b" (1 # 2); stats_of "c" (1 # 2)]
    "plots" src_b bad_label_done_world =
    (emit ["plots/b.png"; " ... skip"] bad_label_done_world, Ok ()) ∧
  (Scripts.plot_lc_table (PyStr "flux.fits") (PyStr "stats.fits") 0 1 "plots"
     bad_label_done_world).2 = Ok () ∧
  stdout (Scripts.plot_lc_table (PyStr "flux.fits") (PyStr "stats.fits") 0 1
            "plots" bad_label_done_world).1 =
    ["plots/a.png"; " ... done"; "plots/b.png"; " ... skip";
     "plots/c.png"; " ... done"].
Proof.
  split; [right; left|].
  split; [reflexivity|].
  split; [vm_compute; reflexivity|].
  split; vm_compute; reflexivity.
Qed.

(** C8 as worded fails: with [--ftable] alone and [--all] the error message
    is printed and the summary renderer is called on [None], where reading
    the table fails; the program ends there, although a call of the batch
    scheduler would have returned.  With [--stable ""] alone no error
    message is printed: the program prints its help and exits. *)
Lemma one_table_argument_counterexample :
  Scripts.arg_ftable cli_only_ftable = Some "flux.fits" ∧
  Scripts.arg_stable cli_only_ftable = None ∧
  Scripts.arg_all cli_only_ftable = true ∧
  Scripts.main cli_only_ftable good_world =
    (emit [Scripts.error_message] good_world,
     Raise (LibraryError "Table.read")) ∧
  (Scripts.plot_lc_table_parallel (PyStr "flux.fits") PyNone "plots" 2
     (emit [Scripts.error_message] good_world)).2 = Ok () ∧
  Scripts.arg_ftable cli_empty_stable = None ∧
  Scripts.arg_stable cli_empty_stable = Some "" ∧
  Scripts.main cli_empty_stable good_world =
    (emit ["usage"] good_world, Raise SystemExit).
Proof.
  repeat split; vm_compute; reflexivity.
Qed.

(** C9 as worded fails: the source [c] has no row in the statistics table,
    yet with [plots/c.png] in place its row is skipped and nothing is
    raised; and for a source without statistics whose epoch label does not
    parse, the failure is the parse failure, not a lookup failure. *)
Lemma missing_stats_row_counterexample :
  filter (λ s, st_uuid s = uuid src_c) [stats_of "a" (1 # 2)] = [] ∧
  Scripts.plot_row [stats_of "a" (1 # 2)] "plots" src_c no_stats_done_world =
    (emit ["plots/c.png"; " ... skip"] no_stats_done_world, Ok ()) ∧
  (Scripts.plot_lc_table (PyStr "flux.fits") (PyStr "stats.fits") 0 1 "plots"
     no_stats_done_world).2 = Ok () ∧
  filter (λ s, st_uuid s = uuid src_b) [stats_of "a" (1 # 2)] = [] ∧
  (Scripts.plot_row [stats_of "a" (1 # 2)] "plots" src_b good_world).2 =
    Raise (ValueError (TimeDataMismatch "02/01/2020 00:00")).
Proof.
  repeat split; vm_compute; reflexivity.
Qed.

(** C10 as worded fails: with [--dbname ""] the database branch is not
    entered; no attribute error is raised and, with a statistics table
    given, the summary plot is written. *)
Lemma empty_dbname_no_attribute_error :
  Db.arg_dbname (cli_db "") = Some "" ∧
  (Db.main iso_dates (cli_db "") good_world).2 = Ok () ∧
  is_Some (files (Db.main iso_dates (cli_db "") good_world).1
           !! "summary.png").
Proof.
  split; [reflexivity|]. split; [vm_compute; reflexivity|].
  vm_compute. eexists. reflexivity.
Qed.

(** * Further properties *)

(** ** The rows of a slice, in order *)

Lemma omap_lookup_total {A B} (f : A → option B) (l : list A) (k : nat) :
  (∀ x, x ∈ l → is_Some (f x)) → omap f l !! k = l !! k ≫= f.
Proof.
  revert k. induction l as [|x l IH]; intros k Hf; [done|].
  destruct (Hf x) as [y Hy]; [by left|].
  simpl. rewrite Hy. destruct k as [|k]; simpl; [done|].
  apply IH. intros z Hz. apply Hf. by right.
Qed.

Lemma slice_len_bound (start stride len k : nat) :
  (1 ≤ stride)%nat →
  (k < slice_len start stride len)%nat ↔ (start + k * stride < len)%nat.
Proof.
  intros Hs. unfold slice_len.
  destruct (Nat.ltb_spec start len) as [Hlt|Hge]; [|nia].
  pose proof (Nat.Div0.mul_div_le (len - start - 1) stride).
  pose proof (Nat.mul_succ_div_gt (len - start - 1) stride).
  split; intros Hk; nia.
Qed.

Lemma py_slice_lookup {A} (start stride : nat) (l rows : list A) (k : nat) :
  py_slice start stride l = Ok rows →
  rows !! k = l !! (start + k * stride)%nat.
Proof.
  unfold py_slice. destruct (Nat.eqb_spec stride 0) as [|Hs]; [done|].
  intros [= <-].
  rewrite omap_lookup_total.
  2:{ intros j Hj%slice_indices_spec; [|lia]. apply lookup_lt_is_Some. tauto. }
  unfold slice_indices. rewrite list_lookup_fmap.
  destruct (decide (k < slice_len start stride (length l))%nat) as [Hk|Hk].
  - rewrite lookup_seq_lt by done. done.
  - rewrite lookup_seq_ge by lia. simpl. symmetry.
    apply lookup_ge_None. rewrite slice_len_bound in Hk by lia. lia.
Qed.

Lemma py_slice_whole {A} (l : list A) : py_slice 0 1 l = Ok l.
Proof.
  destruct (py_slice 0 1 l) as [rows|e] eqn:Hsl; [|done].
  f_equal. apply list_eq. intros k.
  rewrite (py_slice_lookup 0 1 l rows k Hsl). f_equal. lia.
Qed.

(** X1.  The rows a worker visits, in the order in which it visits them:
    the [k]-th row of [ftab[start::stride]] is row [start + k * stride] of
    the table, and the slice ends where the table does.  A [start] at or
    beyond the end of the table gives an empty slice; with the default
    values of [start] and [stride] the slice is the table. *)
Theorem slice_rows_in_table_order {A} (start stride : nat) (l : list A) :
  (1 ≤ stride)%nat →
  (∃ rows,
     py_slice start stride l = Ok rows ∧
     ∀ k : nat, rows !! k = l !! (start + k * stride)%nat) ∧
  ((length l ≤ start)%nat → py_slice start stride l = Ok []) ∧
  py_slice 0 1 l = Ok l.
Proof.
  intros Hs.
  assert (Hrun : ∀ (a b : nat), (1 ≤ b)%nat → ∃ rows,
    py_slice a b l = Ok rows ∧
    ∀ k : nat, rows !! k = l !! (a + k * b)%nat).
  { intros a b Hb. destruct (py_slice a b l) as [rows|e] eqn:Hsl.
    - exists rows. split; [done|]. intros k. by eapply py_slice_lookup.
    - unfold py_slice in Hsl. destruct (Nat.eqb_spec b 0); [lia|done]. }
  split; [by apply Hrun|]. split.
  - intros Hlen. destruct (Hrun start stride Hs) as (rows & -> & Hk).
    f_equal. apply list_eq. intros k. rewrite Hk, lookup_nil.
    apply lookup_ge_None. lia.
  - destruct (Hrun 0%nat 1%nat) as (rows & -> & Hk); [lia|].
    f_equal. apply list_eq. intros k. rewrite Hk. f_equal. lia.
Qed.

(** ** What a worker prints and what a failed worker leaves *)

Lemma plot_row_other stab dir row w p :
  p ≠ Scripts.fname_of dir row →
  files (Scripts.plot_row stab dir row w).1 !! p = files w !! p.
Proof.
  intros Hp. rewrite plot_row_eq.
  destruct (bool_decide _); [done|].
  destruct (Scripts.draw stab row); [|done].
  simpl. by rewrite lookup_insert_ne.
Qed.

Lemma for_each_other stab dir rows w p :
  p ∉ Scripts.fname_of dir <$> rows →
  files (for_each rows (Scripts.plot_row stab dir) w).1 !! p = files w !! p.
Proof.
  revert w. induction rows as [|row rows IH]; intros w Hp; [done|].
  rewrite fmap_cons, not_elem_of_cons in Hp. destruct Hp as [Hp Hps].
  rewrite for_each_cons.
  pose proof (plot_row_other stab dir row w p Hp) as Ho.
  destruct (Scripts.plot_row stab dir row w) as [w' [[]|e]]; simpl in *;
    [|done].
  by rewrite IH.
Qed.

Lemma flat_map_ext_elem {A B} (g h : A → list B) (l : list A) :
  (∀ x, x ∈ l → g x = h x) → flat_map g l = flat_map h l.
Proof.
  induction l as [|x l IH]; intros H; [done|].
  simpl. rewrite (H x) by left. f_equal. apply IH.
  intros y Hy. apply H. by right.
Qed.

Lemma for_each_raise_split {A} (l : list A) body w w1 e :
  for_each l body w = (w1, Raise e) →
  ∃ pre x rest w0,
    l = pre ++ x :: rest ∧
    for_each pre body w = (w0, Ok ()) ∧
    body x w0 = (w1, Raise e).
Proof.
  revert w. induction l as [|x l IH]; intros w; [done|].
  rewrite for_each_cons.
  destruct (body x w) as [w' [[]|e']] eqn:Hb.
  - intros (pre & y & rest & w0 & -> & Hpre & Hy)%IH.
    exists (x :: pre), y, rest, w0. split; [done|]. split; [|done].
    by rewrite for_each_cons, Hb.
  - intros [= -> ->]. by exists [], x, l, w.
Qed.

(** X2.  What a worker that runs to its end has printed: for each row of
    its slice, in order, the output path followed by [ ... skip] when the
    path existed before the run and by [ ... done] when it did not (rows
    with different uuids). *)
Theorem completed_run_log f s ftab stab rows start stride dir w w1 :
  files w !! f = Some (FluxTable ftab) →
  files w !! s = Some (StatsTable stab) →
  py_slice start stride ftab = Ok rows →
  NoDup (uuid <$> rows) →
  Scripts.plot_lc_table (PyStr f) (PyStr s) start stride dir w = (w1, Ok ()) →
  stdout w1 = stdout w ++ logged dir w rows.
Proof.
  intros Hf Hs Hsl Hnd.
  rewrite (plot_lc_table_run f s ftab stab rows start stride dir w) by done.
  clear Hf Hs Hsl. revert w. unfold logged.
  induction rows as [|row rows IH]; intros w Hrun.
  - injection Hrun as <-. simpl. by rewrite app_nil_r.
  - rewrite fmap_cons in Hnd. apply NoDup_cons in Hnd as [Hrow Hnd].
    rewrite for_each_cons, plot_row_eq in Hrun.
    assert (Hsame : ∀ w', stdout w' = stdout w ++
        [Scripts.fname_of dir row;
         if bool_decide (is_Some (files w !! Scripts.fname_of dir row))
         then " ... skip" else " ... done"] →
      (∀ r, r ∈ rows →
         is_Some (files w' !! Scripts.fname_of dir r) ↔
         is_Some (files w !! Scripts.fname_of dir r)) →
      for_each rows (Scripts.plot_row stab dir) w' = (w1, Ok ()) →
      stdout w1 = stdout w ++
        flat_map (λ row0,
          [Scripts.fname_of dir row0;
           if bool_decide (is_Some (files w !! Scripts.fname_of dir row0))
           then " ... skip" else " ... done"]) (row :: rows)).
    { intros w' Hout Hfiles Hrun'. rewrite (IH Hnd w' Hrun'), Hout.
      rewrite <- app_assoc. f_equal. simpl. do 2 f_equal.
      apply flat_map_ext_elem. intros r Hr.
      by rewrite (bool_decide_ext _ _ (Hfiles r Hr)). }
    destruct (bool_decide_reflect
                (is_Some (files w !! Scripts.fname_of dir row))) as [Hex|Hex].
    + eapply Hsame; [| |exact Hrun]; done.
    + destruct (Scripts.draw stab row) as [fig|]; [|done].
      eapply Hsame; [| |exact Hrun].
      * simpl. by rewrite <- !app_assoc.
      * intros r Hr. simpl. rewrite lookup_insert_ne; [done|].
        intros E%fname_of_inj. apply Hrow. rewrite E.
        by apply list_elem_of_fmap_2.
Qed.

(** X3.  What a worker that ends with an exception leaves: the rows of its
    slice before the failing row have their files, the failing row is the
    one whose drawing raised the exception and has no file, its path is the
    last text printed, and no path other than those of the rows before it
    has changed. *)
Theorem failed_worker_leaves_prefix
    f s ftab stab rows start stride dir w w1 e :
  files w !! f = Some (FluxTable ftab) →
  files w !! s = Some (StatsTable stab) →
  py_slice start stride ftab = Ok rows →
  Scripts.plot_lc_table (PyStr f) (PyStr s) start stride dir w
    = (w1, Raise e) →
  ∃ pre row rest,
    rows = pre ++ row :: rest ∧
    (∀ r, r ∈ pre → is_Some (files w1 !! Scripts.fname_of dir r)) ∧
    files w1 !! Scripts.fname_of dir row = None ∧
    Scripts.draw stab row = Raise e ∧
    last (stdout w1) = Some (Scripts.fname_of dir row) ∧
    ∀ p, p ∉ Scripts.fname_of dir <$> pre → files w1 !! p = files w !! p.
Proof.
  intros Hf Hs Hsl.
  rewrite (plot_lc_table_run f s ftab stab rows start stride dir w) by done.
  intros (pre & row & rest & w0 & -> & Hpre & Hrow)%for_each_raise_split.
  exists pre, row, rest. split; [done|].
  rewrite plot_row_eq in Hrow.
  destruct (bool_decide_reflect
              (is_Some (files w0 !! Scripts.fname_of dir row))) as [Hex|Hex];
    [done|].
  destruct (Scripts.draw stab row) as [fig|e'] eqn:Hd; [done|].
  injection Hrow as <- <-. simpl.
  split; [by eapply for_each_done|].
  split; [by apply eq_None_not_Some|].
  split; [done|].
  split; [by rewrite last_snoc|].
  intros p Hp. pose proof (for_each_other stab dir pre w p Hp) as Ho.
  by rewrite Hpre in Ho.
Qed.

(** ** The figure of a row *)

Lemma draw_labels_parse stab row fig :
  Scripts.draw stab row = Ok fig →
  ∀ a, a ∈ epoch_cells row → is_ok (strptime a) = true.
Proof.
  intros Hdraw.
  destruct (draw_needs_cells _ _ _ Hdraw) as (He & Hf & Hr).
  revert Hdraw. rewrite draw_eq by done.
  destruct (rmap strptime (epoch_cells row)) as [ts|] eqn:Hts; [|done].
  intros _ a Ha. by eapply rmap_ok_inv.
Qed.

(** X4.  A light curve has as many points as the shortest of the three
    column families of the row has columns: [zip] drops the cells beyond
    it.  All the same every epoch label of the row was parsed, those of
    dropped cells included. *)
Theorem draw_truncates_to_shortest_family stab row lc :
  Scripts.draw stab row = Ok (LightCurve lc) →
  let n := Nat.min (length (epoch_cells row))
             (Nat.min (length (peak_flux_cells row))
                      (length (err_peak_flux_cells row))) in
  length (lc_x lc) = n ∧ length (lc_y lc) = n ∧ length (lc_yerr lc) = n ∧
  (1 ≤ n)%nat ∧
  ∀ a, a ∈ epoch_cells row → is_ok (strptime a) = true.
Proof.
  intros Hdraw n.
  pose proof (draw_labels_parse _ _ _ Hdraw) as Hall.
  pose proof Hdraw as Hdraw0.
  apply draw_ok_inv in Hdraw as (s & sl & Hsl & [= ->]).
  assert (sl ≠ []) as Hne.
  { intros ->.
    destruct (draw_needs_cells _ _ _ Hdraw0) as (He & Hf & Hr).
    revert Hdraw0. rewrite draw_eq by done.
    destruct (rmap strptime _); [|done]. simpl. by rewrite Hsl. }
  apply sorted_inv in Hsl as [_ ->].
  assert (length (snd <$> sort_by dt_leb (decorate (measurements row))) = n)
    as Hlen.
  { rewrite (Permutation_length (sorted_measurements (measurements row))).
    unfold measurements. rewrite !length_zip. lia. }
  unfold lc_of. cbn [lc_x lc_y lc_yerr]. rewrite !length_fmap.
  rewrite length_fmap in Hlen.
  do 3 (split; [done|]). split; [|done].
  rewrite <- Hlen.
  destruct (sort_by dt_leb (decorate (measurements row))); [done|simpl; lia].
Qed.

Lemma filter_first_match (pre post : list stats_row) s u :
  (∀ s', s' ∈ pre → st_uuid s' ≠ u) →
  st_uuid s = u →
  filter (λ s, st_uuid s = u) (pre ++ s :: post) =
  s :: filter (λ s, st_uuid s = u) post.
Proof.
  intros Hpre Hs. rewrite filter_app, filter_cons_True by done.
  induction pre as [|s' pre IH]; [done|].
  rewrite filter_cons_False by (apply Hpre; left).
  apply IH. intros s0 Hs0. apply Hpre. by right.
Qed.

(** X5.  Of several rows of the statistics table with the uuid of a
    source, the first in table order is the one used ([srow['m'][0]]): the
    rows after it have no influence on the figure, and the legend shows the
    values of that row. *)
Theorem first_statistics_row_is_used pre s post row :
  (∀ s', s' ∈ pre → st_uuid s' ≠ uuid row) →
  st_uuid s = uuid row →
  Scripts.draw (pre ++ s :: post) row = Scripts.draw [s] row ∧
  Db.draw (pre ++ s :: post) row = Db.draw [s] row ∧
  ∀ lc, Scripts.draw (pre ++ s :: post) row = Ok (LightCurve lc) →
        lc_label lc = (st_m s, st_md s, st_chisq_peak_flux s).
Proof.
  intros Hpre Hs.
  pose proof (filter_first_match pre post s (uuid row) Hpre Hs) as Hl.
  assert (filter (λ s, st_uuid s = uuid row) [s] = [s]) as Hr
    by (by rewrite filter_cons_True).
  assert (Scripts.draw (pre ++ s :: post) row = Scripts.draw [s] row) as Heq.
  { unfold Scripts.draw. rewrite Hl, Hr. reflexivity. }
  split; [done|]. split.
  - unfold Db.draw. rewrite Hl, Hr. reflexivity.
  - intros lc. rewrite Heq. intros Hdraw.
    destruct (draw_needs_cells _ _ _ Hdraw) as (He & Hf & Hc).
    revert Hdraw. rewrite draw_eq by done. cbv zeta. rewrite Hr.
    destruct (rmap strptime _); [|done]. simpl.
    destruct (sorted _ _ _); [|done]. simpl.
    destruct (unzip3 _) as [[[? ?] ?]|]; [|done]. simpl.
    by intros [= <-].
Qed.

(** ** A row stored in time order *)

Lemma sort_by_Sorted_id {A K} (leb : K → K → bool) (l : list (K * A)) :
  Sorted (key_le leb) l → sort_by leb l = l.
Proof.
  induction 1 as [|x l Hs IH Hhd]; [done|].
  simpl. fold (sort_by leb l). rewrite IH.
  destruct Hhd as [|y l Hxy]; [done|].
  simpl. unfold key_le in Hxy. by rewrite Hxy.
Qed.

(** X6.  A row whose epoch columns are in time order already (ties
    allowed) is plotted as it is stored: sorting changes nothing. *)
Theorem chronological_row_plotted_as_stored stab row lc ts :
  Scripts.draw stab row = Ok (LightCurve lc) →
  rmap strptime (measurements row).*1.*1 = Ok ts →
  Sorted dt_le ts →
  plotted lc = (λ p, (XLabel p.1.1, p.1.2, p.2)) <$> measurements row.
Proof.
  intros Hdraw Hts Hsorted.
  apply draw_ok_inv in Hdraw as (s & sl & Hsl & [= ->]).
  apply sorted_inv in Hsl as [Hok ->].
  rewrite plotted_lc_of. f_equal.
  assert (ts = (decorate (measurements row)).*1) as ->.
  { rewrite decorate_keys.
    rewrite (rmap_ok strptime tm) in Hts; [congruence|].
    intros a ([a' y] & -> & ([p e] & -> & Hp)%list_elem_of_fmap)%list_elem_of_fmap.
    apply strptime_tm. by apply (Hok _ Hp). }
  rewrite sort_by_Sorted_id.
  - unfold decorate. rewrite <- list_fmap_compose. apply list_fmap_id.
  - revert Hsorted. generalize (decorate (measurements row)).
    induction l as [|d l IH]; [constructor|].
    rewrite fmap_cons. intros Hs. apply Sorted_inv in Hs as [Hs Hhd].
    constructor; [auto|]. destruct l; [constructor|].
    apply HdRel_inv in Hhd. by constructor.
Qed.

(** ** The files of a run do not depend on the number of workers *)

Lemma drawn_cons stab dir row rows :
  drawn stab dir (row :: rows) =
  match Scripts.draw stab row with
  | Ok fig => <[Scripts.fname_of dir row := Png fig]> (drawn stab dir rows)
  | Raise _ => drawn stab dir rows
  end.
Proof. unfold drawn. simpl. by destruct (Scripts.draw stab row). Qed.

Lemma drawn_app stab dir l1 l2 :
  drawn stab dir (l1 ++ l2) = drawn stab dir l1 ∪ drawn stab dir l2.
Proof. unfold drawn. by rewrite omap_app, list_to_map_app. Qed.

Lemma union_insert_shadowed (m1 m2 : gmap string file) i x :
  is_Some (m1 !! i) → m1 ∪ <[i := x]> m2 = m1 ∪ m2.
Proof.
  intros Hi. apply map_eq. intros j. destruct (decide (i = j)) as [<-|Hj].
  - by rewrite !lookup_union_l' by done.
  - rewrite !lookup_union. by rewrite lookup_insert_ne.
Qed.

(** A loop all of whose rows can be drawn where they have to be runs to its
    end and adds the light curves that were missing. *)
Lemma for_each_files stab dir rows w :
  (∀ r, r ∈ rows → files w !! Scripts.fname_of dir r = None →
        is_ok (Scripts.draw stab r) = true) →
  ∃ w1, for_each rows (Scripts.plot_row stab dir) w = (w1, Ok ()) ∧
        files w1 = files w ∪ drawn stab dir rows.
Proof.
  revert w. induction rows as [|row rows IH]; intros w Hok.
  - exists w. split; [done|]. unfold drawn. simpl.
    by rewrite (right_id_L ∅ (∪)).
  - rewrite for_each_cons, plot_row_eq.
    destruct (bool_decide_reflect
                (is_Some (files w !! Scripts.fname_of dir row))) as [Hex|Hex].
    + destruct (IH (emit [Scripts.fname_of dir row; " ... skip"] w))
        as (w1 & Hrun & Hfiles).
      { intros r Hr. apply Hok. by right. }
      exists w1. split; [done|]. rewrite Hfiles. simpl.
      rewrite drawn_cons. destruct (Scripts.draw stab row); [|done].
      by rewrite union_insert_shadowed.
    + apply eq_None_not_Some in Hex.
      pose proof (Hok row ltac:(left) Hex) as Hd.
      rewrite drawn_cons.
      destruct (Scripts.draw stab row) as [fig|]; [|done].
      destruct (IH (emit [" ... done"]
                      (write_file (Scripts.fname_of dir row) (Png fig)
                         (emit [Scripts.fname_of dir row] w))))
        as (w1 & Hrun & Hfiles).
      { intros r Hr. simpl. intros Hnone. apply Hok; [by right|].
        apply lookup_insert_None in Hnone. tauto. }
      exists w1. split; [done|]. rewrite Hfiles. simpl.
      by rewrite <- insert_union_l, insert_union_r.
Qed.

Lemma fname_of_NoDup dir (l : list flux_row) :
  NoDup (uuid <$> l) → NoDup (Scripts.fname_of dir <$> l).
Proof.
  induction l as [|r l IH]; [constructor|].
  rewrite !fmap_cons, !NoDup_cons. intros [Hr Hnd]. split; [|auto].
  intros (r' & E & Hr')%list_elem_of_fmap. apply Hr.
  apply fname_of_inj in E. rewrite E. by apply list_elem_of_fmap_2.
Qed.

Lemma drawn_keys_NoDup stab dir (l : list flux_row) :
  NoDup (uuid <$> l) →
  NoDup (omap (λ row,
           match Scripts.draw stab row with
           | Ok fig => Some (Scripts.fname_of dir row, Png fig)
           | Raise _ => None
           end) l).*1.
Proof.
  intros Hnd%(fname_of_NoDup dir).
  induction l as [|r l IH]; [constructor|].
  rewrite fmap_cons, NoDup_cons in Hnd. destruct Hnd as [Hr Hnd].
  simpl. destruct (Scripts.draw stab r); [|auto].
  rewrite fmap_cons. apply NoDup_cons. split; [|auto].
  simpl. intros ([p x] & E & Hin)%list_elem_of_fmap.
  apply list_elem_of_omap in Hin as (r' & Hr' & Hp).
  destruct (Scripts.draw stab r'); [|done]. injection Hp as <- _.
  apply Hr. simpl in E. rewrite E. by apply list_elem_of_fmap_2.
Qed.

Lemma drawn_Permutation stab dir (l l' : list flux_row) :
  NoDup (uuid <$> l) → l ≡ₚ l' → drawn stab dir l = drawn stab dir l'.
Proof.
  intros Hnd Hperm. unfold drawn.
  apply list_to_map_proper; [by apply drawn_keys_NoDup|].
  by apply omap_Permutation.
Qed.

(** The shares of the workers [0 .. N-1], put together, are the table up to
    the order of its rows. *)
Lemma shares_Permutation {A} (N : nat) (rows : list A) :
  (1 ≤ N)%nat →
  concat ((λ i, omap (λ j, rows !! j) (slice_indices i N (length rows)))
            <$> seq 0 N) ≡ₚ rows.
Proof.
  intros HN.
  replace ((λ i, omap (λ j, rows !! j) (slice_indices i N (length rows)))
             <$> seq 0 N)
    with ((omap (λ j, rows !! j) : list nat → list A)
            <$> ((λ i, slice_indices i N (length rows)) <$> seq 0 N))
    by (by rewrite <- list_fmap_compose).
  rewrite <- omap_concat.
  transitivity (omap (λ j, rows !! j) (seq 0 (length rows)));
    [|by rewrite omap_lookup_seq].
  apply omap_Permutation, NoDup_Permutation.
  - apply NoDup_concat_disjoint.
    + apply Forall_fmap, Forall_forall. intros i _.
      by apply slice_indices_NoDup.
    + intros i1 i2 l1 l2 j H1 H2 Hj1 Hj2.
      apply list_lookup_fmap_Some in H1 as (a1 & -> & [? ?]%lookup_seq).
      apply list_lookup_fmap_Some in H2 as (a2 & -> & [? ?]%lookup_seq).
      simpl in *. subst.
      apply slice_indices_spec in Hj1 as (_ & k1 & E1); [|done].
      apply slice_indices_spec in Hj2 as (_ & k2 & E2); [|done].
      assert (j mod N = i1)%nat as <-.
      { rewrite E1, Nat.Div0.mod_add. by apply Nat.mod_small. }
      rewrite E2, Nat.Div0.mod_add. by apply Nat.mod_small.
  - apply NoDup_seq.
  - intros j. rewrite elem_of_concat, elem_of_seq.
    setoid_rewrite list_elem_of_fmap. setoid_rewrite elem_of_seq.
    split.
    + intros (l & (i & -> & _ & Hi) & Hj). split; [lia|].
      apply slice_indices_spec in Hj; [|done]. simpl. tauto.
    + intros [_ Hj]. exists (slice_indices (j mod N) N (length rows)).
      split.
      * exists (j mod N)%nat. split; [done|].
        pose proof (Nat.mod_upper_bound j N). lia.
      * apply slice_indices_spec; [done|]. split; [done|].
        exists (j / N)%nat. pose proof (Nat.div_mod_eq j N). lia.
Qed.

Lemma worker_files f s ftab stab dir (i N : nat) w :
  files w !! f = Some (FluxTable ftab) →
  files w !! s = Some (StatsTable stab) →
  (1 ≤ N)%nat →
  (∀ r, r ∈ ftab → files w !! Scripts.fname_of dir r = None →
        is_ok (Scripts.draw stab r) = true) →
  files (apply_async
           (Scripts.plot_lc_table (PyStr f) (PyStr s) i N dir) w).1 =
  files w ∪
  drawn stab dir (omap (λ j, ftab !! j) (slice_indices i N (length ftab))).
Proof.
  intros Hf Hs HN Hok.
  assert (py_slice i N ftab =
          Ok (omap (λ j, ftab !! j) (slice_indices i N (length ftab))))
    as Hsl.
  { unfold py_slice. destruct (Nat.eqb_spec N 0); [lia|done]. }
  unfold apply_async. cbn [fst].
  rewrite (plot_lc_table_run f s ftab stab _ i N dir w Hf Hs Hsl).
  destruct (for_each_files stab dir
              (omap (λ j, ftab !! j) (slice_indices i N (length ftab))) w)
    as (w1 & Hrun & Hfiles).
  { intros r Hr. apply Hok. by eapply py_slice_subset. }
  by rewrite Hrun.
Qed.

Lemma workers_files f s ftab stab dir (N : nat) (workers : list nat) w :
  (1 ≤ N)%nat →
  files w !! f = Some (FluxTable ftab) →
  files w !! s = Some (StatsTable stab) →
  (∀ r, r ∈ ftab → files w !! Scripts.fname_of dir r = None →
        is_ok (Scripts.draw stab r) = true) →
  files (for_each workers
           (λ i, apply_async
                   (Scripts.plot_lc_table (PyStr f) (PyStr s) i N dir)) w).1 =
  files w ∪
  drawn stab dir
    (concat ((λ i, omap (λ j, ftab !! j) (slice_indices i N (length ftab)))
               <$> workers)).
Proof.
  intros HN. revert w. induction workers as [|i workers IH]; intros w Hf Hs Hok.
  - simpl. unfold drawn. simpl. by rewrite (right_id_L ∅ (∪)).
  - rewrite for_each_cons.
    pose proof (worker_files f s ftab stab dir i N w Hf Hs HN Hok) as Hw.
    unfold apply_async in Hw |- *. cbn [fst] in Hw.
    set (w' := (Scripts.plot_lc_table (PyStr f) (PyStr s) i N dir w).1) in *.
    rewrite IH.
    + rewrite Hw, fmap_cons. simpl. by rewrite drawn_app, (assoc_L (∪)).
    + rewrite Hw. by apply lookup_union_Some_l.
    + rewrite Hw. by apply lookup_union_Some_l.
    + intros r Hr Hnone. rewrite Hw in Hnone.
      apply lookup_union_None in Hnone as [Hnone _]. by apply Hok.
Qed.

Lemma parallel_files f s ftab stab dir N w :
  files w !! f = Some (FluxTable ftab) →
  files w !! s = Some (StatsTable stab) →
  NoDup (uuid <$> ftab) →
  (∀ r, r ∈ ftab → files w !! Scripts.fname_of dir r = None →
        is_ok (Scripts.draw stab r) = true) →
  1 ≤ N →
  files (Scripts.plot_lc_table_parallel (PyStr f) (PyStr s) dir N w).1 =
  files w ∪ drawn stab dir ftab.
Proof.
  intros Hf Hs Hnd Hok HN. unfold Scripts.plot_lc_table_parallel, mp_Pool.
  destruct (decide (N < 1)); [lia|]. rewrite bind_ret_l.
  rewrite (workers_files f s ftab stab) by (done || lia).
  f_equal. symmetry. apply drawn_Permutation; [done|].
  symmetry. apply shares_Permutation. lia.
Qed.

(** X7.  When no two rows of the flux table share a uuid and every row
    whose light curve is missing can be drawn, the files the scheduler
    leaves do not depend on the number of workers: they are the files there
    were and the light curves that were missing, as a single pass over the
    table leaves them; running the scheduler again, with any number of
    workers, changes no file. *)
Theorem worker_count_is_irrelevant f s ftab stab dir N w :
  files w !! f = Some (FluxTable ftab) →
  files w !! s = Some (StatsTable stab) →
  NoDup (uuid <$> ftab) →
  (∀ r, r ∈ ftab → files w !! Scripts.fname_of dir r = None →
        is_ok (Scripts.draw stab r) = true) →
  1 ≤ N →
  let w1 := (Scripts.plot_lc_table_parallel (PyStr f) (PyStr s) dir N w).1 in
  files w1 = files w ∪ drawn stab dir ftab ∧
  files w1 = files (Scripts.plot_lc_table (PyStr f) (PyStr s) 0 1 dir w).1 ∧
  ∀ N', 1 ≤ N' →
    files (Scripts.plot_lc_table_parallel (PyStr f) (PyStr s) dir N' w1).1 =
    files w1.
Proof.
  intros Hf Hs Hnd Hok HN w1.
  assert (files w1 = files w ∪ drawn stab dir ftab) as Hw1
    by (by apply parallel_files).
  split; [done|]. split.
  - rewrite (plot_lc_table_run f s ftab stab ftab 0 1 dir w Hf Hs
               (py_slice_whole ftab)).
    destruct (for_each_files stab dir ftab w Hok) as (w2 & Hrun & Hfiles).
    by rewrite Hrun, Hw1.
  - intros N' HN'. rewrite (parallel_files f s ftab stab); try done.
    + rewrite Hw1. by rewrite <- (assoc_L (∪)), (idemp_L (∪)).
    + rewrite Hw1. by apply lookup_union_Some_l.
    + rewrite Hw1. by apply lookup_union_Some_l.
    + intros r Hr Hnone. rewrite Hw1 in Hnone.
      apply lookup_union_None in Hnone as [Hnone _]. by apply Hok.
Qed.

(** ** The command line *)

(** X8.  With [--all] and a number of cores below one, the program writes
    the summary plot and then ends with the [ValueError] of [mp.Pool]: no
    worker is started. *)
Theorem cores_below_one_fails_after_summary c w w1 n :
  Scripts.arg_cores c = Some n →
  n < 1 →
  Scripts.arg_all c = true →
  truthy (opt_str (Scripts.arg_ftable c))
    || truthy (opt_str (Scripts.arg_stable c)) = true →
  ((if negb (truthy (opt_str (Scripts.arg_ftable c))
             && truthy (opt_str (Scripts.arg_stable c)))
    then print Scripts.error_message else mret ());;
   Scripts.plot_summary_table (opt_str (Scripts.arg_stable c))
     (opt_str (Scripts.arg_plot c))) w = (w1, Ok ()) →
  Scripts.main c w = (w1, Raise (ValueError PoolSize)) ∧
  ∀ ft st dir w0,
    Scripts.plot_lc_table_parallel ft st dir n w0 =
    (w0, Raise (ValueError PoolSize)).
Proof.
  intros Hcores Hn Hall Htables Hpre.
  assert (Hpool : ∀ ft st dir w0,
    Scripts.plot_lc_table_parallel ft st dir n w0 =
    (w0, Raise (ValueError PoolSize))).
  { intros. unfold Scripts.plot_lc_table_parallel, mp_Pool.
    destruct (decide (n < 1)); [done|lia]. }
  split; [|done].
  rewrite scripts_main_eq. cbv zeta. rewrite Htables, Hall, Hcores.
  revert Hpre. unfold mbind, M_bind.
  destruct (negb _); simpl;
    (destruct (Scripts.plot_summary_table _ _ _) as [w'' [[]|e]]; [|done]);
    intros [= ->]; apply Hpool.
Qed.

(** X9.  The flag [--dates] has no effect in the flat-table script: the
    parser stores it and nothing reads it. *)
Theorem dates_flag_is_ignored ftable stable plot all lc_dir cores d1 d2 w :
  Scripts.main
    {| Scripts.arg_ftable := ftable; Scripts.arg_stable := stable;
       Scripts.arg_plot := plot; Scripts.arg_all := all;
       Scripts.arg_lc_dir := lc_dir; Scripts.arg_dates := d1;
       Scripts.arg_cores := cores |} w =
  Scripts.main
    {| Scripts.arg_ftable := ftable; Scripts.arg_stable := stable;
       Scripts.arg_plot := plot; Scripts.arg_all := all;
       Scripts.arg_lc_dir := lc_dir; Scripts.arg_dates := d2;
       Scripts.arg_cores := cores |} w.
Proof. by rewrite !scripts_main_eq. Qed.

(** X10.  Without a table argument (none given, or given empty) either
    script prints its help and exits: no file is read or written, whatever
    the other arguments are. *)
Theorem no_table_argument_exits w :
  (∀ c,
     truthy (opt_str (Scripts.arg_ftable c)) = false →
     truthy (opt_str (Scripts.arg_stable c)) = false →
     Scripts.main c w = (print_help;; sys_exit) w ∧
     (Scripts.main c w).2 = Raise SystemExit ∧
     files (Scripts.main c w).1 = files w) ∧
  (∀ dateutil_parse c,
     truthy (opt_str (Db.arg_dbname c)) = false →
     truthy (opt_str (Db.arg_ftable c)) = false →
     truthy (opt_str (Db.arg_stable c)) = false →
     Db.main dateutil_parse c w = (print_help;; sys_exit) w ∧
     (Db.main dateutil_parse c w).2 = Raise SystemExit ∧
     files (Db.main dateutil_parse c w).1 = files w).
Proof.
  split.
  - intros c Hft Hst. rewrite scripts_main_eq. cbv zeta.
    by rewrite Hft, Hst.
  - intros parse c Hdb Hft Hst. rewrite db_main_eq by done. cbv zeta.
    by rewrite Hft, Hst.
Qed.

(** ** Files that are there stay *)





(** ** A flux table that cannot be read *)

Lemma worker_without_flux_table f st start stride dir w :
  (∀ rows, files w !! f ≠ Some (FluxTable rows)) →
  (∀ rows, files w !! f ≠ Some (StatsTable rows)) →
  apply_async (Scripts.plot_lc_table (PyStr f) st start stride dir) w =
  (w, Ok ()).
Proof.
  intros Hf _. unfold apply_async, Scripts.plot_lc_table. unfold_M.
  destruct (files w !! f) as [[rows| | |]|] eqn:E; try done.
  by destruct (Hf rows).
Qed.

Lemma savefig_world plotfile fig w :
  (savefig plotfile fig w).1 = w ∨
  ∃ q, (savefig plotfile fig w).1 = write_file q (Png fig) w.
Proof.
  unfold savefig. destruct plotfile as [|p| |]; try by left.
  destruct (savefig_path p) as [q|e]; [right; by exists q|by left].
Qed.

(** X12.  With both tables named and [--all], a flux table that is missing
    or is no table goes unnoticed: every worker fails on reading it and the
    scheduler returns all the same, so that the program does what the
    summary renderer alone does and prints nothing; with a plot name of
    the extension [.png] it ends normally and the plot is the only file
    written. *)
Theorem unreadable_flux_table_goes_unnoticed c w f s p tab :
  Scripts.arg_ftable c = Some f → f ≠ "" →
  Scripts.arg_stable c = Some s → s ≠ "" →
  Scripts.arg_plot c = Some p →
  Scripts.arg_all c = true →
  1 ≤ default (cpu_count w) (Scripts.arg_cores c) →
  files w !! s = Some (StatsTable tab) →
  (∀ rows, files w !! f ≠ Some (FluxTable rows)) →
  (∀ rows, files w !! f ≠ Some (StatsTable rows)) →
  Scripts.main c w = Scripts.plot_summary_table (PyStr s) (PyStr p) w ∧
  stdout (Scripts.main c w).1 = stdout w ∧
  (splitext_format p = "png" →
   (Scripts.main c w).2 = Ok () ∧
   ∀ q, q ≠ p → files (Scripts.main c w).1 !! q = files w !! q).
Proof.
  intros Hft Hf Hst Hs Hp Hall Hn Hstats Hflux Hflux'.
  pose proof (plot_summary_table_eq s (PyStr p) tab w Hstats) as Hsum.
  assert (Scripts.main c w =
          Scripts.plot_summary_table (PyStr s) (PyStr p) w) as Hmain.
  { rewrite scripts_main_eq. cbv zeta.
    rewrite Hft, Hst, Hp, Hall. cbn [opt_str].
    rewrite !truthy_str by done. cbn [orb andb negb].
    rewrite bind_ret_l. unfold mbind at 1, M_bind at 1.
    rewrite Hsum.
    destruct (savefig_world (PyStr p)
                (Summary (table_marker <$> List.filter table_shown tab)) w)
      as [Hw|[q Hw]];
      destruct (savefig _ _ w) as [w' [[]|e]]; simpl in Hw; subst w';
      try done.
    all: unfold Scripts.plot_lc_table_parallel, mp_Pool;
      (destruct (decide (_ < 1)); [simpl in *; lia|]); rewrite bind_ret_l;
      generalize
        (seq 0 (Z.to_nat (default (cpu_count w) (Scripts.arg_cores c))));
      intros workers;
      induction workers as [|i workers IH]; [done|];
      rewrite for_each_cons, worker_without_flux_table; [done| |]; try done.
    all: intros rows; simpl;
      (destruct (decide (q = f)) as [->|Hqf];
       [by rewrite lookup_insert_eq|by rewrite lookup_insert_ne]). }
  rewrite Hmain, Hsum. split; [done|]. split.
  - destruct (savefig_world (PyStr p)
                (Summary (table_marker <$> List.filter table_shown tab)) w)
      as [->|[q ->]]; done.
  - intros Hpng. rewrite savefig_png_extension by done. simpl.
    split; [done|]. intros q Hq. by rewrite lookup_insert_ne.
Qed.

(** ** The summary plot of an empty selection *)

(** X16.  When no row of [stats] has a positive p-value (an empty relation
    included), the database summary renderer ends with the [ValueError] of
    the unpacking of [zip( *rows)], before a figure is made: no file is
    written. *)
Theorem db_summary_without_positive_row cur plotfile w :
  (∀ r, r ∈ db_stats cur → (st_pval_peak_flux r <= 0)%Q) →
  Db.select_summary cur = [] ∧
  Db.plot_summary cur plotfile w = (w, Raise (ValueError NotEnoughValues)).
Proof.
  intros Hall.
  assert (Db.select_summary cur = []) as Hsel.
  { unfold Db.select_summary.
    assert (List.filter (λ r, Qpositive (st_pval_peak_flux r)) (db_stats cur)
            = []) as ->; [|done].
    induction (db_stats cur) as [|r l IH]; [done|]. simpl.
    assert (Qpositive (st_pval_peak_flux r) = false) as ->.
    { apply Qpositive_false, Hall. left. }
    apply IH. intros r' Hr'. apply Hall. by right. }
  split; [done|]. unfold Db.plot_summary. by rewrite Hsel.
Qed.

(** ** The loop of [plot_lc] *)

Lemma plot_lc_loop_step parse cur u rest dates w :
  let fname := "plots/" +:+ u +:+ ".png" in
  Db.plot_lc_loop parse cur (u :: rest) dates w =
  if bool_decide (is_Some (files w !! fname))
  then Db.plot_lc_loop parse cur rest dates (emit [fname; " ... skip"] w)
  else
    match Db.unzip4 (Db.select_light_curve cur u) with
    | Raise e => (emit [fname] w, Raise e)
    | Ok (peak_flux, err_peak_flux, epoch, date) =>
        match Db.select_stats cur u with
        | Raise e => (emit [fname] w, Raise e)
        | Ok label =>
            let curve x xlabel :=
              Png (LightCurve {| lc_x := x; lc_y := peak_flux;
                                 lc_yerr := err_peak_flux; lc_label := label;
                                 lc_xlabel := xlabel; lc_title := u |}) in
            if dates then
              match mapM parse date with
              | Some ds =>
                  Db.plot_lc_loop parse cur rest true
                    (emit [" ... done"]
                       (write_file fname (curve (XDate <$> ds) None)
                          (emit [fname] w)))
              | None =>
                  Db.plot_lc_loop parse cur rest false
                    (emit [" ... done"]
                       (write_file fname
                          (curve (XEpoch <$> epoch) (Some "Epoch"))
                          (emit [fname;
                                 " ... Unknown date encountered, reverting to epoch plotting"]
                             w)))
              end
            else
              Db.plot_lc_loop parse cur rest false
                (emit [" ... done"]
                   (write_file fname (curve (XEpoch <$> epoch) (Some "Epoch"))
                      (emit [fname] w)))
        end
    end.
Proof.
  cbv zeta. cbn [Db.plot_lc_loop].
  unfold mbind, mret, M_bind, M_ret, print, os_path_exists, lift.
  change (files (emit ["plots/" +:+ u +:+ ".png"] w)) with (files w).
  destruct (bool_decide _); [by rewrite emit_emit|].
  destruct (Db.unzip4 _) as [[[[pf epf] ep] dt]|]; [|done].
  destruct (Db.select_stats cur u) as [[[m md] chisq]|]; [|done].
  destruct dates;
    [destruct (mapM parse dt)|];
    rewrite savefig_ends_in_png by apply ends_in_png_plots;
    rewrite ?emit_emit; reflexivity.
Qed.

(** Without dates the date parser is not called. *)
Lemma plot_lc_loop_epochs_only parse parse' cur sources w :
  Db.plot_lc_loop parse cur sources false w =
  Db.plot_lc_loop parse' cur sources false w.
Proof.
  revert w. induction sources as [|u rest IH]; intros w; [done|].
  rewrite !plot_lc_loop_step. cbv zeta.
  destruct (bool_decide _); [apply IH|].
  destruct (Db.unzip4 _) as [[[[pf epf] ep] dt]|]; [|done].
  destruct (Db.select_stats cur u) as [label|]; [|done].
  apply IH.
Qed.

(** X17.  In the loop of [plot_lc] with dates, the first source one of
    whose dates the parser refuses is plotted against its epoch numbers,
    with a note on the terminal, and so is every source after it, whether
    its dates can be parsed or not: the handler resets [dates] for the rest
    of the loop, in which the parser is not called again. *)
Theorem date_fallback_is_sticky
    dateutil_parse cur u rest w peak_flux err_peak_flux epoch date label :
  files w !! ("plots/" +:+ u +:+ ".png") = None →
  Db.unzip4 (Db.select_light_curve cur u)
    = Ok (peak_flux, err_peak_flux, epoch, date) →
  Db.select_stats cur u = Ok label →
  mapM dateutil_parse date = None →
  ∀ any_parse,
    Db.plot_lc_loop dateutil_parse cur (u :: rest) true w =
    Db.plot_lc_loop any_parse cur rest false
      (emit [" ... done"]
         (write_file ("plots/" +:+ u +:+ ".png")
            (Png (LightCurve {| lc_x := XEpoch <$> epoch;
                                lc_y := peak_flux;
                                lc_yerr := err_peak_flux;
                                lc_label := label;
                                lc_xlabel := Some "Epoch";
                                lc_title := u |}))
            (emit ["plots/" +:+ u +:+ ".png";
                   " ... Unknown date encountered, reverting to epoch plotting"]
               w))).
Proof.
  intros Hnew Hlc Hst Hbad any_parse.
  rewrite plot_lc_loop_step. cbv zeta.
  rewrite bool_decide_eq_false_2 by (rewrite Hnew; by intros [? ?]).
  rewrite Hlc, Hst, Hbad. apply plot_lc_loop_epochs_only.
Qed.

(** The rows of the join, each with its sort key. *)
Lemma joined_keys cur u :
  Forall (λ d : Z * (Q * Q * Z * string), d.1 = d.2.1.2 ∧
            (u, d.2.1.2, d.2.1.1.1, d.2.1.1.2) ∈ db_sources cur ∧
            (d.2.1.2, d.2.2) ∈ db_epochs cur)
    (s ← db_sources cur;
     e ← db_epochs cur;
     if decide (s.1.1.1 = u ∧ s.1.1.2 = e.1)
     then [(e.1, (s.1.2, s.2, s.1.1.2, e.2))] else []).
Proof.
  apply Forall_forall. intros d Hd.
  apply list_elem_of_bind in Hd as ([[[u' ep] pf] epf] & Hd & Hs).
  apply list_elem_of_bind in Hd as ([ep' dt] & Hd & He).
  simpl in Hd. destruct (decide _) as [[-> ->]|]; [|by apply elem_of_nil in Hd].
  apply list_elem_of_singleton in Hd as ->. simpl. done.
Qed.

Lemma unzip4_ok_inv {A B C D} (l : list (A * B * C * D)) a b c d :
  Db.unzip4 l = Ok (a, b, c, d) →
  l ≠ [] ∧ a = l.*1.*1.*1 ∧ b = l.*1.*1.*2 ∧ c = l.*1.*2 ∧ d = l.*2.
Proof. destruct l; [done|]. by intros [= <- <- <- <-]. Qed.

Lemma Z_leb_total a b : (a <=? b) = true ∨ (b <=? a) = true.
Proof. destruct (Z.leb_spec a b); [by left|right]. apply Z.leb_le. lia. Qed.

Lemma select_light_curve_epochs cur u :
  Sorted Z.le (Db.select_light_curve cur u).*1.*2.
Proof.
  unfold Db.select_light_curve.
  set (joined := db_sources cur ≫= _).
  assert (Forall (λ d : Z * (Q * Q * Z * string), d.1 = d.2.1.2)
            (sort_by Z.leb joined)) as Hkeys.
  { rewrite (sort_by_Permutation Z.leb joined).
    eapply Forall_impl; [apply (joined_keys cur u)|]. by intros d [? _]. }
  assert ((snd <$> sort_by Z.leb joined).*1.*2 = (sort_by Z.leb joined).*1)
    as ->.
  { induction Hkeys as [|d l Hd _ IH]; [done|].
    rewrite !fmap_cons. by rewrite IH, Hd. }
  apply (Sorted_fmap fst (key_le Z.leb) Z.le).
  - intros x y. unfold key_le. apply Z.leb_le.
  - apply sort_by_Sorted, Z_leb_total.
Qed.

Lemma select_light_curve_rows cur u y e x d :
  (y, e, x, d) ∈ Db.select_light_curve cur u →
  (u, x, y, e) ∈ db_sources cur ∧ (x, d) ∈ db_epochs cur.
Proof.
  unfold Db.select_light_curve.
  intros ([k r] & Hr & Hin)%list_elem_of_fmap.
  rewrite (sort_by_Permutation Z.leb) in Hin.
  pose proof (joined_keys cur u) as Hall.
  rewrite Forall_forall in Hall. apply Hall in Hin as (_ & Hs & He).
  simpl in Hr. subst r. done.
Qed.

(** X18.  In the loop of [plot_lc] without dates, the light curve of a
    source is plotted against its epoch numbers in ascending order ([ORDER
    BY e.epoch]); each point is a measurement of the source in [sources]
    whose epoch is listed in [epochs]. *)
Theorem db_light_curve_in_epoch_order
    dateutil_parse cur u rest w peak_flux err_peak_flux epoch date label :
  files w !! ("plots/" +:+ u +:+ ".png") = None →
  Db.unzip4 (Db.select_light_curve cur u)
    = Ok (peak_flux, err_peak_flux, epoch, date) →
  Db.select_stats cur u = Ok label →
  Db.plot_lc_loop dateutil_parse cur (u :: rest) false w =
    Db.plot_lc_loop dateutil_parse cur rest false
      (emit [" ... done"]
         (write_file ("plots/" +:+ u +:+ ".png")
            (Png (LightCurve {| lc_x := XEpoch <$> epoch;
                                lc_y := peak_flux;
                                lc_yerr := err_peak_flux;
                                lc_label := label;
                                lc_xlabel := Some "Epoch";
                                lc_title := u |}))
            (emit ["plots/" +:+ u +:+ ".png"] w))) ∧
  Sorted Z.le epoch ∧
  ∀ (i : nat) y e x d,
    peak_flux !! i = Some y → err_peak_flux !! i = Some e →
    epoch !! i = Some x → date !! i = Some d →
    (u, x, y, e) ∈ db_sources cur ∧ (x, d) ∈ db_epochs cur.
Proof.
  intros Hnew Hlc Hst. split; [|split].
  - rewrite plot_lc_loop_step. cbv zeta.
    rewrite bool_decide_eq_false_2 by (rewrite Hnew; by intros [? ?]).
    by rewrite Hlc, Hst.
  - apply unzip4_ok_inv in Hlc as (_ & _ & _ & -> & _).
    apply select_light_curve_epochs.
  - apply unzip4_ok_inv in Hlc as (_ & -> & -> & -> & ->).
    intros i y e x d Hy He Hx Hd.
    rewrite !list_lookup_fmap in Hy. rewrite !list_lookup_fmap in He.
    rewrite !list_lookup_fmap in Hx. rewrite !list_lookup_fmap in Hd.
    destruct (Db.select_light_curve cur u !! i) as [[[[y' e'] x'] d']|] eqn:Hi;
      [|done].
    simpl in *. injection Hy as ->. injection He as ->.
    injection Hx as ->. injection Hd as ->.
    apply select_light_curve_rows. by eapply list_elem_of_lookup_2.
Qed.

Lemma select_light_curve_nil cur u :
  Db.select_light_curve cur u = [] ↔
  ∀ s e, s ∈ db_sources cur → e ∈ db_epochs cur →
         s.1.1.1 = u → s.1.1.2 ≠ e.1.
Proof.
  unfold Db.select_light_curve.
  set (joined := db_sources cur ≫= _).
  assert (snd <$> sort_by Z.leb joined = [] ↔ joined = []) as ->.
  { split.
    - intros E%fmap_nil_inv. apply Permutation_nil_r.
      by rewrite <- (sort_by_Permutation Z.leb joined), E.
    - by intros ->. }
  subst joined. split.
  - intros Hnil s e Hs He Hu Hep.
    assert ((e.1, (s.1.2, s.2, s.1.1.2, e.2)) ∈
      (db_sources cur ≫= λ s, db_epochs cur ≫= λ e,
         if decide (s.1.1.1 = u ∧ s.1.1.2 = e.1)
         then [(e.1, (s.1.2, s.2, s.1.1.2, e.2))] else [])) as Hin.
    { apply list_elem_of_bind. exists s. split; [|done].
      apply list_elem_of_bind. exists e. split; [|done].
      rewrite decide_True by done. by left. }
    rewrite Hnil in Hin. by apply elem_of_nil in Hin.
  - intros Hno.
    destruct (db_sources cur ≫= _) as [|d l] eqn:E; [done|].
    assert (d ∈ d :: l) as Hd by left. rewrite <- E in Hd.
    apply list_elem_of_bind in Hd as (s & Hd & Hs).
    apply list_elem_of_bind in Hd as (e & Hd & He).
    destruct (decide _) as [[Hu Hep]|]; [|by apply elem_of_nil in Hd].
    by destruct (Hno s e Hs He Hu).
Qed.

(** X19.  A source with incomplete data ends the loop of [plot_lc] once its
    file name is printed: with the [ValueError] of the unpacking when none
    of its epochs is listed in [epochs], and with the [TypeError] of
    unpacking [None] when it has measurements and no row in [stats]. *)
Theorem db_incomplete_source_errors dateutil_parse cur u rest dates w :
  files w !! ("plots/" +:+ u +:+ ".png") = None →
  ((∀ s e, s ∈ db_sources cur → e ∈ db_epochs cur →
           s.1.1.1 = u → s.1.1.2 ≠ e.1) →
   Db.plot_lc_loop dateutil_parse cur (u :: rest) dates w =
   (emit ["plots/" +:+ u +:+ ".png"] w,
    Raise (ValueError NotEnoughValues))) ∧
  (Db.select_light_curve cur u ≠ [] →
   (∀ r, r ∈ db_stats cur → st_uuid r ≠ u) →
   Db.plot_lc_loop dateutil_parse cur (u :: rest) dates w =
   (emit ["plots/" +:+ u +:+ ".png"] w, Raise TypeError)).
Proof.
  intros Hnew. split.
  - intros Hnil%select_light_curve_nil.
    rewrite plot_lc_loop_step. cbv zeta.
    rewrite bool_decide_eq_false_2 by (rewrite Hnew; by intros [? ?]).
    by rewrite Hnil.
  - intros Hne Hno.
    rewrite plot_lc_loop_step. cbv zeta.
    rewrite bool_decide_eq_false_2 by (rewrite Hnew; by intros [? ?]).
    destruct (Db.select_light_curve cur u) as [|r l]; [done|]. cbn [Db.unzip4].
    unfold Db.select_stats.
    assert (filter (λ r, st_uuid r = u) (db_stats cur) = []) as ->; [|done].
    induction (db_stats cur) as [|r0 l0 IH]; [done|].
    rewrite filter_cons_False by (apply Hno; left).
    apply IH. intros r' Hr'. apply Hno. by right.
Qed.


(** ** The files of the database loop *)




(** ** The whole run *)

(** X21.  The flat-table script from end to end.  With both tables named and
    readable, [--all], at least one core, a plot file of the extension
    [.png] that is neither table, no two rows of the flux table with one
    uuid and every light curve that is missing drawable, the program ends
    normally; the files are then those the summary renderer leaves and the
    light curves that were missing. *)
Theorem main_end_to_end c w f s p ftab stab :
  Scripts.arg_ftable c = Some f → f ≠ "" →
  Scripts.arg_stable c = Some s → s ≠ "" →
  Scripts.arg_plot c = Some p → splitext_format p = "png" → p ≠ f → p ≠ s →
  Scripts.arg_all c = true →
  1 ≤ default (cpu_count w) (Scripts.arg_cores c) →
  files w !! f = Some (FluxTable ftab) →
  files w !! s = Some (StatsTable stab) →
  NoDup (uuid <$> ftab) →
  let dir := default "plots" (Scripts.arg_lc_dir c) in
  (∀ r, r ∈ ftab →
     files w !! Scripts.fname_of dir r = None → Scripts.fname_of dir r ≠ p →
     is_ok (Scripts.draw stab r) = true) →
  (Scripts.main c w).2 = Ok () ∧
  files (Scripts.main c w).1 =
    files (Scripts.plot_summary_table (PyStr s) (PyStr p) w).1
      ∪ drawn stab dir ftab.
Proof.
  intros Hft Hf Hst Hs Hp Hpng Hpf Hps Hall Hn Hflux Hstats Hnd dir Hok.
  assert (Scripts.plot_summary_table (PyStr s) (PyStr p) w =
          (write_file p
             (Png (Summary (table_marker <$> List.filter table_shown stab))) w,
           Ok ())) as Hsum.
  { by rewrite (plot_summary_table_eq s _ stab), savefig_png_extension. }
  rewrite Hsum. cbn [fst].
  set (w1 := write_file p _ w).
  assert (Scripts.main c w =
          Scripts.plot_lc_table_parallel (PyStr f) (PyStr s) dir
            (default (cpu_count w) (Scripts.arg_cores c)) w1) as ->.
  { rewrite scripts_main_eq. cbv zeta.
    rewrite Hft, Hst, Hp, Hall. cbn [opt_str].
    rewrite !truthy_str by done. cbn [orb andb negb].
    rewrite bind_ret_l. unfold mbind at 1, M_bind at 1.
    by rewrite Hsum. }
  split; [by apply parallel_returns|].
  apply parallel_files; try done.
  - subst w1. simpl. by rewrite lookup_insert_ne.
  - subst w1. simpl. by rewrite lookup_insert_ne.
  - intros r Hr. subst w1. simpl. intros [Hne Hnone]%lookup_insert_None.
    apply Hok; done.
Qed.

(** ** The loop of [plot_lc] with dates *)

(** X22.  In the loop of [plot_lc] with dates, a source all of whose dates the
    parser accepts is plotted against the parsed dates, taken in ascending
    order of the epoch numbers and not sorted by date; no label is put on
    the horizontal axis, and the loop goes on with dates. *)
Theorem db_light_curve_with_dates
    dateutil_parse cur u rest w peak_flux err_peak_flux epoch date label ds :
  files w !! ("plots/" +:+ u +:+ ".png") = None →
  Db.unzip4 (Db.select_light_curve cur u)
    = Ok (peak_flux, err_peak_flux, epoch, date) →
  Db.select_stats cur u = Ok label →
  mapM dateutil_parse date = Some ds →
  Db.plot_lc_loop dateutil_parse cur (u :: rest) true w =
    Db.plot_lc_loop dateutil_parse cur rest true
      (emit [" ... done"]
         (write_file ("plots/" +:+ u +:+ ".png")
            (Png (LightCurve {| lc_x := XDate <$> ds;
                                lc_y := peak_flux;
                                lc_yerr := err_peak_flux;
                                lc_label := label;
                                lc_xlabel := None;
                                lc_title := u |}))
            (emit ["plots/" +:+ u +:+ ".png"] w))) ∧
  Sorted Z.le epoch ∧
  Forall2 (λ d t, dateutil_parse d = Some t) date ds ∧
  length ds = length epoch.
Proof.
  intros Hnew Hlc Hst Hds. split; [|split; [|split]].
  - rewrite plot_lc_loop_step. cbv zeta.
    rewrite bool_decide_eq_false_2 by (rewrite Hnew; by intros [? ?]).
    by rewrite Hlc, Hst, Hds.
  - apply unzip4_ok_inv in Hlc as (_ & _ & _ & -> & _).
    apply select_light_curve_epochs.
  - by apply mapM_Some.
  - apply mapM_Some, Forall2_length in Hds. rewrite <- Hds.
    apply unzip4_ok_inv in Hlc as (_ & _ & _ & -> & ->).
    by rewrite !length_fmap.
Qed.

(** ** Instances of the further properties *)

Lemma slice_rows_in_table_order_witness :
  (∃ rows,
     py_slice 1 2 [src_a; src_b; src_c; src_d] = Ok rows ∧
     ∀ k : nat, rows !! k = [src_a; src_b; src_c; src_d] !! (1 + k * 2)%nat) ∧
  ((length [src_a; src_b; src_c; src_d] ≤ 1)%nat →
   py_slice 1 2 [src_a; src_b; src_c; src_d] = Ok []) ∧
  py_slice 0 1 [src_a; src_b; src_c; src_d] = Ok [src_a; src_b; src_c; src_d].
Proof.
  apply (slice_rows_in_table_order 1 2 [src_a; src_b; src_c; src_d]). lia.
Defined.

Lemma completed_run_log_witness :
  stdout (Scripts.plot_lc_table (PyStr "flux.fits") (PyStr "stats.fits") 0 1
            "plots" two_done_world).1 =
  stdout two_done_world ++ logged "plots" two_done_world [src_a; src_c; src_d].
Proof.
  apply (completed_run_log "flux.fits" "stats.fits" [src_a; src_c; src_d]
           [stats_of "a" (1 # 2); stats_of "c" (-1); stats_of "d" (1 # 1000)]
           [src_a; src_c; src_d] 0 1 "plots" two_done_world).
  - vm_compute. reflexivity.
  - vm_compute. reflexivity.
  - vm_compute. reflexivity.
  - apply (bool_decide_unpack _). vm_compute. exact I.
  - vm_compute. reflexivity.
Defined.

Lemma failed_worker_leaves_prefix_witness :
  ∃ pre row rest,
    [src_a; src_b; src_c] = pre ++ row :: rest ∧
    (∀ r, r ∈ pre →
       is_Some (files (Scripts.plot_lc_table (PyStr "flux.fits")
                         (PyStr "stats.fits") 0 1 "plots" bad_label_world).1
                !! Scripts.fname_of "plots" r)) ∧
    files (Scripts.plot_lc_table (PyStr "flux.fits") (PyStr "stats.fits") 0 1
             "plots" bad_label_world).1 !! Scripts.fname_of "plots" row = None ∧
    Scripts.draw
      [stats_of "a" (1 # 2); stats_of "b" (1 # 2); stats_of "c" (1 # 2)] row =
      Raise (ValueError (TimeDataMismatch "02/01/2020 00:00")) ∧
    last (stdout (Scripts.plot_lc_table (PyStr "flux.fits")
                    (PyStr "stats.fits") 0 1 "plots" bad_label_world).1) =
      Some (Scripts.fname_of "plots" row) ∧
    ∀ p, p ∉ Scripts.fname_of "plots" <$> pre →
      files (Scripts.plot_lc_table (PyStr "flux.fits") (PyStr "stats.fits") 0 1
               "plots" bad_label_world).1 !! p = files bad_label_world !! p.
Proof.
  apply (failed_worker_leaves_prefix "flux.fits" "stats.fits"
           [src_a; src_b; src_c]
           [stats_of "a" (1 # 2); stats_of "b" (1 # 2); stats_of "c" (1 # 2)]
           [src_a; src_b; src_c] 0 1 "plots" bad_label_world).
  - vm_compute. reflexivity.
  - vm_compute. reflexivity.
  - vm_compute. reflexivity.
  - vm_compute. reflexivity.
Defined.

Lemma draw_truncates_to_shortest_family_witness :
  length (lc_x (lc_of "s" (stats_of "s" (1 # 2))
                  [("2020-01-01T00:00:00", 1 # 1, 1 # 10);
                   ("2020-01-02T00:00:00", 2 # 1, 2 # 10)])) = 2%nat ∧
  ∀ a, a ∈ epoch_cells src_short → is_ok (strptime a) = true.
Proof.
  destruct (draw_truncates_to_shortest_family [stats_of "s" (1 # 2)] src_short
              (lc_of "s" (stats_of "s" (1 # 2))
                 [("2020-01-01T00:00:00", 1 # 1, 1 # 10);
                  ("2020-01-02T00:00:00", 2 # 1, 2 # 10)]))
    as (Hx & _ & _ & _ & Hall).
  - vm_compute. reflexivity.
  - split; [exact Hx|exact Hall].
Defined.

Lemma first_statistics_row_is_used_witness :
  Scripts.draw [stats_of "c" (1 # 2); stats_of "a" (1 # 2); stats_a'] src_a =
  Scripts.draw [stats_of "a" (1 # 2)] src_a.
Proof.
  apply (first_statistics_row_is_used [stats_of "c" (1 # 2)]
           (stats_of "a" (1 # 2)) [stats_a'] src_a).
  - intros s' Hs'. apply list_elem_of_singleton in Hs' as ->. discriminate.
  - reflexivity.
Defined.

Lemma chronological_row_plotted_as_stored_witness :
  plotted (lc_of "e" (stats_of "e" (1 # 2)) (measurements src_e)) =
  (λ p, (XLabel p.1.1, p.1.2, p.2)) <$> measurements src_e.
Proof.
  apply (chronological_row_plotted_as_stored [stats_of "e" (1 # 2)] src_e
           (lc_of "e" (stats_of "e" (1 # 2)) (measurements src_e))
           [mk_datetime 2020 1 1 0 0 0; mk_datetime 2020 1 1 0 0 0;
            mk_datetime 2020 1 2 0 0 0]).
  - vm_compute. reflexivity.
  - vm_compute. reflexivity.
  - repeat constructor.
Defined.

Lemma worker_count_is_irrelevant_witness :
  files (Scripts.plot_lc_table_parallel (PyStr "flux.fits") (PyStr "stats.fits")
           "plots" 2 good_world).1 =
  files (Scripts.plot_lc_table (PyStr "flux.fits") (PyStr "stats.fits") 0 1
           "plots" good_world).1.
Proof.
  destruct (worker_count_is_irrelevant "flux.fits" "stats.fits"
              [src_a; src_c; src_d]
              [stats_of "a" (1 # 2); stats_of "c" (-1); stats_of "d" (1 # 1000)]
              "plots" 2 good_world) as (_ & Hpass & _).
  - vm_compute. reflexivity.
  - vm_compute. reflexivity.
  - apply (bool_decide_unpack _). vm_compute. exact I.
  - intros r Hr _.
    apply elem_of_cons in Hr as [->|Hr]; [vm_compute; reflexivity|].
    apply elem_of_cons in Hr as [->|Hr]; [vm_compute; reflexivity|].
    apply list_elem_of_singleton in Hr as ->. vm_compute. reflexivity.
  - lia.
  - exact Hpass.
Defined.

Lemma cores_below_one_fails_after_summary_witness :
  Scripts.main (cli_both (Some 0)) good_world =
  ((Scripts.plot_summary_table (PyStr "stats.fits") (PyStr "summary.png")
      good_world).1,
   Raise (ValueError PoolSize)).
Proof.
  apply (cores_below_one_fails_after_summary (cli_both (Some 0)) good_world
           (Scripts.plot_summary_table (PyStr "stats.fits")
              (PyStr "summary.png") good_world).1 0).
  - reflexivity.
  - lia.
  - reflexivity.
  - reflexivity.
  - vm_compute. reflexivity.
Defined.

Lemma no_table_argument_exits_witness :
  (Scripts.main cli_empty_stable good_world).2 = Raise SystemExit ∧
  files (Scripts.main cli_empty_stable good_world).1 = files good_world.
Proof.
  destruct (no_table_argument_exits good_world) as [Hscripts _].
  destruct (Hscripts cli_empty_stable) as (_ & Hexit & Hfiles).
  - reflexivity.
  - reflexivity.
  - split; [exact Hexit|exact Hfiles].
Defined.


Lemma unreadable_flux_table_goes_unnoticed_witness :
  Scripts.main cli_missing_ftable good_world =
    Scripts.plot_summary_table (PyStr "stats.fits") (PyStr "summary.png")
      good_world ∧
  stdout (Scripts.main cli_missing_ftable good_world).1 = stdout good_world ∧
  (Scripts.main cli_missing_ftable good_world).2 = Ok () ∧
  ∀ q, q ≠ "summary.png" →
    files (Scripts.main cli_missing_ftable good_world).1 !! q =
    files good_world !! q.
Proof.
  destruct (unreadable_flux_table_goes_unnoticed cli_missing_ftable good_world
              "missing.fits" "stats.fits" "summary.png"
              [stats_of "a" (1 # 2); stats_of "c" (-1); stats_of "d" (1 # 1000)])
    as (Hmain & Hout & Hpng).
  - reflexivity.
  - discriminate.
  - reflexivity.
  - discriminate.
  - reflexivity.
  - reflexivity.
  - vm_compute. discriminate.
  - vm_compute. reflexivity.
  - intros rows. vm_compute. discriminate.
  - intros rows. vm_compute. discriminate.
  - split; [exact Hmain|]. split; [exact Hout|]. apply Hpng. reflexivity.
Defined.

Lemma db_summary_without_positive_row_witness :
  Db.plot_summary nonpositive_db (PyStr "summary.png") good_world =
  (good_world, Raise (ValueError NotEnoughValues)).
Proof.
  apply (db_summary_without_positive_row nonpositive_db (PyStr "summary.png")
           good_world).
  intros r Hr.
  apply elem_of_cons in Hr as [->|Hr]; [vm_compute; discriminate|].
  apply list_elem_of_singleton in Hr as ->. vm_compute. discriminate.
Defined.

Lemma date_fallback_is_sticky_witness :
  Db.plot_lc_loop iso_dates lc_db_a ["a"; "z"] true good_world =
  Db.plot_lc_loop (λ _, None) lc_db_a ["z"] false
    (emit [" ... done"]
       (write_file "plots/a.png"
          (Png (LightCurve {| lc_x := [XEpoch 1; XEpoch 2];
                              lc_y := [1 # 1; 2 # 1];
                              lc_yerr := [1 # 10; 2 # 10];
                              lc_label := (1 # 100, 2 # 100, 3 # 2);
                              lc_xlabel := Some "Epoch";
                              lc_title := "a" |}))
          (emit ["plots/a.png";
                 " ... Unknown date encountered, reverting to epoch plotting"]
             good_world))).
Proof.
  apply (date_fallback_is_sticky iso_dates lc_db_a "a" ["z"] good_world
           [1 # 1; 2 # 1] [1 # 10; 2 # 10] [1; 2]
           ["2020-01-01T00:00:00"; "yesterday"] (1 # 100, 2 # 100, 3 # 2)).
  - vm_compute. reflexivity.
  - vm_compute. reflexivity.
  - vm_compute. reflexivity.
  - vm_compute. reflexivity.
Defined.

Lemma db_light_curve_in_epoch_order_witness :
  Db.plot_lc_loop iso_dates lc_db ["a"] false good_world =
    Db.plot_lc_loop iso_dates lc_db [] false
      (emit [" ... done"]
         (write_file "plots/a.png"
            (Png (LightCurve {| lc_x := [XEpoch 1; XEpoch 2];
                                lc_y := [1 # 1; 2 # 1];
                                lc_yerr := [1 # 10; 2 # 10];
                                lc_label := (1 # 100, 2 # 100, 3 # 2);
                                lc_xlabel := Some "Epoch";
                                lc_title := "a" |}))
            (emit ["plots/a.png"] good_world))) ∧
  Sorted Z.le [1; 2].
Proof.
  destruct (db_light_curve_in_epoch_order iso_dates lc_db "a" [] good_world
              [1 # 1; 2 # 1] [1 # 10; 2 # 10] [1; 2]
              ["2020-01-01T00:00:00"; "yesterday"] (1 # 100, 2 # 100, 3 # 2))
    as (Hrun & Hsorted & _).
  - vm_compute. reflexivity.
  - vm_compute. reflexivity.
  - vm_compute. reflexivity.
  - split; [exact Hrun|exact Hsorted].
Defined.

Lemma db_incomplete_source_errors_witness :
  Db.plot_lc_loop iso_dates lc_db ["c"; "a"] false good_world =
    (emit ["plots/c.png"] good_world, Raise (ValueError NotEnoughValues)) ∧
  Db.plot_lc_loop iso_dates lc_db ["b"; "a"] false good_world =
    (emit ["plots/b.png"] good_world, Raise TypeError).
Proof.
  split.
  - apply (db_incomplete_source_errors iso_dates lc_db "c" ["a"] false
             good_world).
    + vm_compute. reflexivity.
    + intros s e Hs He Hu.
      repeat (apply elem_of_cons in Hs as [->|Hs]; [try discriminate|]);
        [|by apply elem_of_nil in Hs].
      repeat (apply elem_of_cons in He as [->|He]; [discriminate|]).
      by apply elem_of_nil in He.
  - apply (db_incomplete_source_errors iso_dates lc_db "b" ["a"] false
             good_world).
    + vm_compute. reflexivity.
    + vm_compute. discriminate.
    + intros r Hr. apply list_elem_of_singleton in Hr as ->. discriminate.
Defined.


Lemma main_end_to_end_witness :
  (Scripts.main (cli_both (Some 2)) good_world).2 = Ok () ∧
  files (Scripts.main (cli_both (Some 2)) good_world).1 =
    files (Scripts.plot_summary_table (PyStr "stats.fits")
             (PyStr "summary.png") good_world).1
      ∪ drawn [stats_of "a" (1 # 2); stats_of "c" (-1); stats_of "d" (1 # 1000)]
          "plots" [src_a; src_c; src_d].
Proof.
  destruct (main_end_to_end (cli_both (Some 2)) good_world "flux.fits"
              "stats.fits" "summary.png" [src_a; src_c; src_d]
              [stats_of "a" (1 # 2); stats_of "c" (-1); stats_of "d" (1 # 1000)])
    as [Hok Hfiles].
  - reflexivity.
  - discriminate.
  - reflexivity.
  - discriminate.
  - reflexivity.
  - reflexivity.
  - discriminate.
  - discriminate.
  - reflexivity.
  - vm_compute. discriminate.
  - vm_compute. reflexivity.
  - vm_compute. reflexivity.
  - apply (bool_decide_unpack _). vm_compute. exact I.
  - intros r Hr _ _.
    apply elem_of_cons in Hr as [->|Hr]; [vm_compute; reflexivity|].
    apply elem_of_cons in Hr as [->|Hr]; [vm_compute; reflexivity|].
    apply list_elem_of_singleton in Hr as ->. vm_compute. reflexivity.
  - split; [exact Hok|exact Hfiles].
Defined.

Lemma db_light_curve_with_dates_witness :
  Db.plot_lc_loop iso_dates lc_db_dated ["a"] true good_world =
    Db.plot_lc_loop iso_dates lc_db_dated [] true
      (emit [" ... done"]
         (write_file "plots/a.png"
            (Png (LightCurve {| lc_x := [XDate (mk_datetime 2020 1 2 0 0 0);
                                         XDate (mk_datetime 2020 1 1 0 0 0)];
                                lc_y := [1 # 1; 2 # 1];
                                lc_yerr := [1 # 10; 2 # 10];
                                lc_label := (1 # 100, 2 # 100, 3 # 2);
                                lc_xlabel := None;
                                lc_title := "a" |}))
            (emit ["plots/a.png"] good_world))) ∧
  Sorted Z.le [1; 2].
Proof.
  destruct (db_light_curve_with_dates iso_dates lc_db_dated "a" [] good_world
              [1 # 1; 2 # 1] [1 # 10; 2 # 10] [1; 2]
              ["2020-01-02T00:00:00"; "2020-01-01T00:00:00"]
              (1 # 100, 2 # 100, 3 # 2)
              [mk_datetime 2020 1 2 0 0 0; mk_datetime 2020 1 1 0 0 0])
    as (Hrun & Hsorted & _).
  - vm_compute. reflexivity.
  - vm_compute. reflexivity.
  - vm_compute. reflexivity.
  - vm_compute. reflexivity.
  - split; [exact Hrun|exact Hsorted].
Defined.
